(** * mv3-capture-decrypt-sidebar: the capture engine and the panel-side parser

    A shallow embedding of [src/background/index.ts] (the service worker that
    attaches to a tab through [chrome.debugger], reassembles network events
    into records and broadcasts them) and of the message validators of the
    DevTools panel, together with the properties of the specification that
    concern them.

    Conventions of the embedding.
    - A JavaScript value of type [unknown] is a [value].  Numbers that pass
      [Number.isFinite] are carried as integers ([Z]): tab ids, status codes,
      byte counts and millisecond time stamps.
    - A JavaScript string is a [string]; its UTF-8 length is [String.length].
    - The module-level variables of the service worker form a [State].
    - An [async] function is a resumption: it runs on the current state until
      it either returns or awaits a [chrome.debugger] call, and is resumed
      later with the reply on whatever the state has become in between. *)

From Stdlib Require Import ZArith String List Lia.
From stdpp Require Import base option list strings gmap.

Set Warnings "-register-all".

Local Open Scope string_scope.
Local Open Scope Z_scope.
Local Open Scope list_scope.

(* ===================================================================== *)
(** ** JavaScript values *)
(* ===================================================================== *)

Module JS.

Inductive number : Type :=
| Finite (z : Z)
| NaN
| Infinity (negative : bool).

Inductive value : Type :=
| VUndefined
| VNull
| VBool (b : bool)
| VNum (n : number)
| VStr (s : string)
| VArr (items : list value)
| VObj (fields : list (string * value)).

(** [o[k]] on the own properties of an object, listed with one entry per
    key. *)
Fixpoint lookupField (k : string) (fields : list (string * value)) : option value :=
  match fields with
  | [] => None
  | (k', v) :: rest => if String.eqb k k' then Some v else lookupField k rest
  end.

(** [value.k] for a [value] that already passed [isRecord]: a missing
    property reads as [undefined]; the property names read by this program
    are never array indices or [length]. *)
Definition prop (v : value) (k : string) : value :=
  match v with
  | VObj fields => default VUndefined (lookupField k fields)
  | _ => VUndefined
  end.

(** ['k' in value] *)
Definition hasProp (v : value) (k : string) : bool :=
  match v with
  | VObj fields => match lookupField k fields with
                   | Some _ => true
                   | None => false
                   end
  | _ => false
  end.

(** [typeof value === 'object' && value !== null] *)
Definition isRecord (v : value) : bool :=
  match v with
  | VObj _ | VArr _ => true
  | _ => false
  end.

(** [typeof value === 'string' ? value : null] *)
Definition asString (v : value) : option string :=
  match v with
  | VStr s => Some s
  | _ => None
  end.

(** [typeof value === 'number' && Number.isFinite(value) ? value : null] *)
Definition asNumber (v : value) : option Z :=
  match v with
  | VNum (Finite z) => Some z
  | _ => None
  end.

(** [typeof value === 'boolean' ? value : null] *)
Definition asBoolean (v : value) : option bool :=
  match v with
  | VBool b => Some b
  | _ => None
  end.

(** [s] when it is a non-empty string: the value that survives a guard
    [if (!s) return null], which fires on [null] and on the empty string. *)
Definition truthyString (s : option string) : option string :=
  match s with
  | Some s => if String.eqb s "" then None else Some s
  | None => None
  end.

(** [Array.isArray(value) ? value : null] *)
Definition asArray (v : value) : option (list value) :=
  match v with
  | VArr items => Some items
  | _ => None
  end.

Definition num (z : Z) : value := VNum (Finite z).

(** [x] for [x : number | null]. *)
Definition numOrNull (x : option Z) : value :=
  match x with
  | Some z => num z
  | None => VNull
  end.

(** [x] for [x : string | null]. *)
Definition strOrNull (x : option string) : value :=
  match x with
  | Some s => VStr s
  | None => VNull
  end.

End JS.
Import JS.


(* ===================================================================== *)
(** ** src/shared/messages.ts *)
(* ===================================================================== *)

Module AppError.
Record t : Type := mk {
  code : string;
  message : string;
  cause : value  (* [unknown]; [undefined] when not given *)
}.
End AppError.

Module ResponseBody.
Record t : Type := mk {
  text : option string;
  isBase64 : bool;
  truncated : bool;
  error : option AppError.t
}.
End ResponseBody.

Module RequestBody.
Record t : Type := mk {
  text : option string;
  truncated : bool;
  error : option AppError.t
}.
End RequestBody.

Module ResponseRecord.
Record t : Type := mk {
  id : string;
  url : string;
  method : string;
  status : Z;
  mimeType : string;
  resourceType : string;
  timeStamp : Z;
  encodedDataLength : Z;
  requestBody : RequestBody.t;
  body : ResponseBody.t
}.
End ResponseRecord.

Inductive PanelToBackgroundMessage : Type :=
| DebuggerAttachMessage (tabId : Z)
| DebuggerDetachMessage (tabId : Z)
| DebuggerStatusMessage
| RecordsGetMessage
| RecordsClearMessage.

Inductive BackgroundToPanelMessage : Type :=
| DebuggerStatusUpdateMessage (attachedTabId : option Z)
| RecordsSnapshotMessage (records : list ResponseRecord.t) (attachedTabId : option Z)
| RecordsAddedMessage (record : ResponseRecord.t)
| ErrorMessage (error : AppError.t).

(** The object literals behind the typed values: what [port.postMessage] is
    handed.  An optional [error] that the literal does not write is not a key
    of the object; [createError] always writes [cause]. *)
Module Wire.

Definition ofAppError (e : AppError.t) : value :=
  VObj [("code", VStr (AppError.code e));
        ("message", VStr (AppError.message e));
        ("cause", AppError.cause e)].

Definition optionalError (e : option AppError.t) : list (string * value) :=
  match e with
  | Some e => [("error", ofAppError e)]
  | None => []
  end.

Definition ofResponseBody (b : ResponseBody.t) : value :=
  VObj ([("text", strOrNull (ResponseBody.text b));
         ("isBase64", VBool (ResponseBody.isBase64 b));
         ("truncated", VBool (ResponseBody.truncated b))]
        ++ optionalError (ResponseBody.error b)).

Definition ofRequestBody (b : RequestBody.t) : value :=
  VObj ([("text", strOrNull (RequestBody.text b));
         ("truncated", VBool (RequestBody.truncated b))]
        ++ optionalError (RequestBody.error b)).

Definition ofResponseRecord (r : ResponseRecord.t) : value :=
  VObj [("id", VStr (ResponseRecord.id r));
        ("url", VStr (ResponseRecord.url r));
        ("method", VStr (ResponseRecord.method r));
        ("status", num (ResponseRecord.status r));
        ("mimeType", VStr (ResponseRecord.mimeType r));
        ("resourceType", VStr (ResponseRecord.resourceType r));
        ("timeStamp", num (ResponseRecord.timeStamp r));
        ("encodedDataLength", num (ResponseRecord.encodedDataLength r));
        ("requestBody", ofRequestBody (ResponseRecord.requestBody r));
        ("body", ofResponseBody (ResponseRecord.body r))].

Definition ofBackgroundMessage (m : BackgroundToPanelMessage) : value :=
  match m with
  | DebuggerStatusUpdateMessage t =>
      VObj [("type", VStr "status.update"); ("attachedTabId", numOrNull t)]
  | RecordsSnapshotMessage rs t =>
      VObj [("type", VStr "records.snapshot");
            ("records", VArr (map ofResponseRecord rs));
            ("attachedTabId", numOrNull t)]
  | RecordsAddedMessage r =>
      VObj [("type", VStr "records.added"); ("record", ofResponseRecord r)]
  | ErrorMessage e =>
      VObj [("type", VStr "error"); ("error", ofAppError e)]
  end.

End Wire.

(* ===================================================================== *)
(** ** The panel: validators of the messages received from the background *)
(* ===================================================================== *)

Module Panel.

Definition parseAppError (v : value) : option AppError.t :=
  if negb (isRecord v) then None else
  let code := asString (prop v "code") in
  let message := asString (prop v "message") in
  match truthyString code, truthyString message with
  | Some code, Some message =>
      let cause := if hasProp v "cause" then prop v "cause" else VUndefined in
      Some (AppError.mk code message cause)
  | _, _ => None
  end.

(** [text = textValue === null ? null : asString(textValue)], rejected when
    [textValue !== null && text === null]. *)
Definition parseText (textValue : value) : option (option string) :=
  match textValue with
  | VNull => Some None
  | _ => match asString textValue with
         | Some s => Some (Some s)
         | None => None
         end
  end.

(** The block [let error; if (value.error !== undefined) ...]. *)
Definition parseOptionalError (v : value) : option (option AppError.t) :=
  match v with
  | VUndefined => Some None
  | _ => match parseAppError v with
         | Some e => Some (Some e)
         | None => None
         end
  end.

Definition parseResponseBody (v : value) : option ResponseBody.t :=
  if negb (isRecord v) then None else
  match parseText (prop v "text") with
  | None => None
  | Some text =>
      match asBoolean (prop v "isBase64"), asBoolean (prop v "truncated") with
      | Some isBase64, Some truncated =>
          match parseOptionalError (prop v "error") with
          | None => None
          | Some error => Some (ResponseBody.mk text isBase64 truncated error)
          end
      | _, _ => None
      end
  end.

Definition parseRequestBody (v : value) : option RequestBody.t :=
  if negb (isRecord v) then None else
  match parseText (prop v "text") with
  | None => None
  | Some text =>
      match asBoolean (prop v "truncated") with
      | Some truncated =>
          match parseOptionalError (prop v "error") with
          | None => None
          | Some error => Some (RequestBody.mk text truncated error)
          end
      | None => None
      end
  end.

Definition parseResponseRecord (v : value) : option ResponseRecord.t :=
  if negb (isRecord v) then None else
  let id := asString (prop v "id") in
  let url := asString (prop v "url") in
  let method := asString (prop v "method") in
  let status := asNumber (prop v "status") in
  let mimeType := asString (prop v "mimeType") in
  let resourceType := asString (prop v "resourceType") in
  let timeStamp := asNumber (prop v "timeStamp") in
  let encodedDataLength := asNumber (prop v "encodedDataLength") in
  match truthyString id, truthyString url, truthyString method, status,
        truthyString mimeType, truthyString resourceType, timeStamp, encodedDataLength with
  | Some id, Some url, Some method, Some status,
    Some mimeType, Some resourceType, Some timeStamp, Some encodedDataLength =>
      match parseRequestBody (prop v "requestBody"), parseResponseBody (prop v "body") with
      | Some requestBody, Some body =>
          Some (ResponseRecord.mk id url method status mimeType resourceType
                                  timeStamp encodedDataLength requestBody body)
      | _, _ => None
      end
  | _, _, _, _, _, _, _, _ => None
  end.

(** [attachedTabId = asNumber(v)], rejected when that is [null] although
    [v] is not. *)
Definition parseAttachedTabId (v : value) : option (option Z) :=
  match asNumber v with
  | Some t => Some (Some t)
  | None => match v with
            | VNull => Some None
            | _ => None
            end
  end.

(** The loop [for (const record of records)] of [records.snapshot]. *)
Fixpoint parseRecords (records : list value) : option (list ResponseRecord.t) :=
  match records with
  | [] => Some []
  | record :: rest =>
      match parseResponseRecord record with
      | None => None
      | Some parsed =>
          match parseRecords rest with
          | None => None
          | Some parsedRecords => Some (parsed :: parsedRecords)
          end
      end
  end.

Definition parseBackgroundMessage (v : value) : option BackgroundToPanelMessage :=
  if negb (isRecord v) then None else
  match truthyString (asString (prop v "type")) with
  | None => None
  | Some messageType =>
      if String.eqb messageType "status.update" then
        match parseAttachedTabId (prop v "attachedTabId") with
        | None => None
        | Some attachedTabId => Some (DebuggerStatusUpdateMessage attachedTabId)
        end
      else if String.eqb messageType "records.snapshot" then
        match asArray (prop v "records") with
        | None => None
        | Some records =>
            match parseAttachedTabId (prop v "attachedTabId") with
            | None => None
            | Some attachedTabId =>
                match parseRecords records with
                | None => None
                | Some parsedRecords =>
                    Some (RecordsSnapshotMessage parsedRecords attachedTabId)
                end
            end
        end
      else if String.eqb messageType "records.added" then
        match parseResponseRecord (prop v "record") with
        | None => None
        | Some parsedRecord => Some (RecordsAddedMessage parsedRecord)
        end
      else if String.eqb messageType "error" then
        match parseAppError (prop v "error") with
        | None => None
        | Some parsedError => Some (ErrorMessage parsedError)
        end
      else None
  end.

End Panel.

(* ===================================================================== *)
(** ** src/background/index.ts: state and the [chrome.debugger] boundary *)
(* ===================================================================== *)

Module PendingRequest.
Record t : Type := mk {
  requestId : string;
  url : string;
  method : string;
  hasPostData : bool;
  requestPostData : option string;
  status : Z;
  mimeType : string;
  resourceType : string;
  timeStamp : Z
}.
End PendingRequest.

Module Background.

Definition MAX_RECORDS : nat := 200.
Definition MAX_BODY_BYTES : Z := 200 * 1024.
Definition MAX_REQUEST_BODY_BYTES : Z := 200 * 1024.
Definition ALLOWED_RESOURCE_TYPES : list string := ["Fetch"; "XHR"].

Definition EVENT_REQUEST_WILL_BE_SENT := "Network.requestWillBeSent".
Definition EVENT_RESPONSE_RECEIVED := "Network.responseReceived".
Definition EVENT_LOADING_FINISHED := "Network.loadingFinished".
Definition EVENT_LOADING_FAILED := "Network.loadingFailed".

(** A connected [chrome.runtime.Port]. *)
Definition Port := nat.

(** The module-level variables, and [posted]: every [port.postMessage] made
    so far, oldest first.  [debugLog] does nothing since [DEBUG] is false and
    is left out. *)
Record State : Type := mkState {
  attachedTabId : option Z;
  panelPorts : list Port;
  pendingRequests : gmap string PendingRequest.t;
  recordBuffer : list ResponseRecord.t;
  posted : list (Port * BackgroundToPanelMessage)
}.

Definition initialState : State := mkState None [] ∅ [] [].

Definition setAttachedTabId (t : option Z) (s : State) : State :=
  mkState t (panelPorts s) (pendingRequests s) (recordBuffer s) (posted s).
Definition setPanelPorts (ps : list Port) (s : State) : State :=
  mkState (attachedTabId s) ps (pendingRequests s) (recordBuffer s) (posted s).
Definition setPendingRequests (m : gmap string PendingRequest.t) (s : State) : State :=
  mkState (attachedTabId s) (panelPorts s) m (recordBuffer s) (posted s).
Definition setRecordBuffer (b : list ResponseRecord.t) (s : State) : State :=
  mkState (attachedTabId s) (panelPorts s) (pendingRequests s) b (posted s).
Definition postMessage (port : Port) (m : BackgroundToPanelMessage) (s : State) : State :=
  mkState (attachedTabId s) (panelPorts s) (pendingRequests s) (recordBuffer s)
          (posted s ++ [(port, m)]).

(** What the service worker asks of [chrome.debugger]. *)
Inductive Call : Type :=
| DebuggerAttach (tabId : Z) (requiredVersion : string)
| DebuggerDetach (tabId : Z)
| DebuggerSendCommand (tabId : option Z) (method : string) (params : value).

(** What the callback of a call finds: a result, or
    [chrome.runtime.lastError] set. *)
Inductive Reply : Type :=
| Result (result : value)
| LastError (lastError : value).

(** A settled promise. *)
Inductive Outcome (A : Type) : Type :=
| Fulfilled (a : A)
| Rejected (reason : value).
Arguments Fulfilled {A} a.
Arguments Rejected {A} reason.

(** A computation that has run up to its next suspension point: it is
    finished, or it waits for the callback of a call; the continuation is
    run on the state found at that later time. *)
Inductive Susp (A : Type) : Type :=
| Return (s : State) (a : A)
| Await (s : State) (c : Call) (k : Reply -> State -> Susp A).
Arguments Return {A} s a.
Arguments Await {A} s c k.

(** An [async] function body. *)
Definition Promise (A : Type) : Type := State -> Susp (Outcome A).

Fixpoint bindSusp {A B} (m : Susp A) (f : A -> State -> Susp B) : Susp B :=
  match m with
  | Return s a => f a s
  | Await s c k => Await s c (fun r s' => bindSusp (k r s') f)
  end.

Definition resolve {A} (a : A) : Promise A := fun s => Return s (Fulfilled a).
Definition reject {A} (reason : value) : Promise A := fun s => Return s (Rejected reason).

(** [const x = await m; k x]: a rejection of [m] is thrown past [k]. *)
Definition bind {A B} (m : Promise A) (k : A -> Promise B) : Promise B :=
  fun s => bindSusp (m s)
             (fun o => match o with
                       | Fulfilled a => k a
                       | Rejected e => reject e
                       end).

(** [try { m } catch (error) { h error }] *)
Definition tryCatch {A} (m : Promise A) (h : value -> Promise A) : Promise A :=
  fun s => bindSusp (m s)
             (fun o => match o with
                       | Fulfilled a => resolve a
                       | Rejected e => h e
                       end).

(** A synchronous statement on the module-level variables. *)
Definition act (f : State -> State) : Promise unit :=
  fun s => Return (f s) (Fulfilled tt).

(** [void m]: the promise is started and dropped. *)
Definition void {A} (m : Promise A) : State -> Susp unit :=
  fun s => bindSusp (m s) (fun _ s' => Return s' tt).

Notation "'await' x ':=' m 'in' k" := (bind m (fun x => k))
  (at level 10, x name, m at level 100, k at level 200).
Notation "m ';;' k" := (bind m (fun _ => k))
  (at level 100, k at level 200, right associativity).

(** The exception of a property read on [undefined] or [null]. *)
Definition typeError : value := VObj [("name", VStr "TypeError")].

(** [v.k] where [v] is not known to be an object. *)
Definition member {A} (v : value) (k : string) (cont : value -> Promise A) : Promise A :=
  match v with
  | VUndefined | VNull => reject typeError
  | _ => cont (prop v k)
  end.

(** [new Promise(...)] around [chrome.debugger.sendCommand]. *)
Definition sendDebuggerCommand (tabId : option Z) (method : string) (params : value)
  : Promise value :=
  fun s => Await s (DebuggerSendCommand tabId method params)
             (fun reply s' =>
                match reply with
                | LastError lastError => Return s' (Rejected lastError)
                | Result result => Return s' (Fulfilled result)
                end).

(** [new Promise(...)] around [chrome.debugger.attach]. *)
Definition debuggerAttach (tabId : Z) (requiredVersion : string) : Promise unit :=
  fun s => Await s (DebuggerAttach tabId requiredVersion)
             (fun reply s' =>
                match reply with
                | LastError lastError => Return s' (Rejected lastError)
                | Result _ => Return s' (Fulfilled tt)
                end).

(** [new Promise(...)] around [chrome.debugger.detach]: the callback
    resolves whatever it finds. *)
Definition debuggerDetach (tabId : Z) : Promise unit :=
  fun s => Await s (DebuggerDetach tabId) (fun _ s' => Return s' (Fulfilled tt)).

(* ------------------------------------------------------------------- *)
(** *** Small helpers, broadcast and the record store *)

Definition createError (code message : string) (cause : value) : AppError.t :=
  AppError.mk code message cause.

Definition isAllowedResourceType (v : string) : bool :=
  existsb (String.eqb v) ALLOWED_RESOURCE_TYPES.

Definition broadcast (m : BackgroundToPanelMessage) (s : State) : State :=
  fold_left (fun s port => postMessage port m s) (panelPorts s) s.

Definition sendSnapshot (port : Port) (s : State) : State :=
  postMessage port (RecordsSnapshotMessage (recordBuffer s) (attachedTabId s)) s.

Definition sendStatusUpdate (s : State) : State :=
  broadcast (DebuggerStatusUpdateMessage (attachedTabId s)) s.

Definition sendError (error : AppError.t) (s : State) : State :=
  broadcast (ErrorMessage error) s.

Definition pushRecord (record : ResponseRecord.t) (s : State) : State :=
  let shifted :=
    if (MAX_RECORDS <=? length (recordBuffer s))%nat
    then tail (recordBuffer s)
    else recordBuffer s in
  broadcast (RecordsAddedMessage record) (setRecordBuffer (shifted ++ [record]) s).

Definition getTextByteLength (text : string) : Z := Z.of_nat (String.length text).

(* ------------------------------------------------------------------- *)
(** *** Body retrieval *)

Definition buildResponseBody (tabId : option Z) (requestId : string) (encodedDataLength : Z)
  : Promise ResponseBody.t :=
  if MAX_BODY_BYTES <? encodedDataLength then
    resolve (ResponseBody.mk None false true
               (Some (createError "BODY_TOO_LARGE" "响应体超过阈值，已跳过" VUndefined)))
  else
    tryCatch
      (await result := sendDebuggerCommand tabId "Network.getResponseBody"
                         (VObj [("requestId", VStr requestId)]) in
       member result "body" (fun body =>
       member result "base64Encoded" (fun base64Encoded =>
       let bodyText := asString body in
       let isBase64 := default false (asBoolean base64Encoded) in
       resolve (ResponseBody.mk bodyText isBase64 false None))))
      (fun error =>
         resolve (ResponseBody.mk None false false
                    (Some (createError "BODY_READ_FAILED" "读取响应体失败" error)))).

Definition requestBodyTooLarge : RequestBody.t :=
  RequestBody.mk None true
    (Some (createError "REQUEST_BODY_TOO_LARGE" "请求体超过阈值，已跳过。" VUndefined)).

(** The last three statements of [buildRequestBody], on the post-data
    finally at hand. *)
Definition finishRequestBody (resolvedPostData : option string) : RequestBody.t :=
  match resolvedPostData with
  | None => RequestBody.mk None false None
  | Some text =>
      if MAX_REQUEST_BODY_BYTES <? getTextByteLength text
      then requestBodyTooLarge
      else RequestBody.mk (Some text) false None
  end.

Definition buildRequestBody (tabId : option Z) (requestId : string)
           (hasPostData : bool) (requestPostData : option string)
  : Promise RequestBody.t :=
  match hasPostData, requestPostData with
  | false, None => resolve (RequestBody.mk None false None)
  | _, Some text =>
      if MAX_REQUEST_BODY_BYTES <? getTextByteLength text
      then resolve requestBodyTooLarge
      else resolve (finishRequestBody (Some text))
  | true, None =>
      match tabId with
      | Some _ =>
          tryCatch
            (await result := sendDebuggerCommand tabId "Network.getRequestPostData"
                               (VObj [("requestId", VStr requestId)]) in
             member result "postData" (fun postData =>
             resolve (finishRequestBody (asString postData))))
            (fun error =>
               resolve (RequestBody.mk None false
                          (Some (createError "REQUEST_BODY_READ_FAILED" "读取请求体失败" error))))
      | None => resolve (finishRequestBody None)
      end
  end.

(* ------------------------------------------------------------------- *)
(** *** Parsers of panel messages and of DevTools events *)

Definition parsePanelMessage (v : value) : option PanelToBackgroundMessage :=
  if negb (isRecord v) then None else
  match truthyString (asString (prop v "type")) with
  | None => None
  | Some messageType =>
      if String.eqb messageType "debugger.attach" then
        match asNumber (prop v "tabId") with
        | None => None
        | Some tabId => Some (DebuggerAttachMessage tabId)
        end
      else if String.eqb messageType "debugger.detach" then
        match asNumber (prop v "tabId") with
        | None => None
        | Some tabId => Some (DebuggerDetachMessage tabId)
        end
      else if String.eqb messageType "debugger.status" then Some DebuggerStatusMessage
      else if String.eqb messageType "records.get" then Some RecordsGetMessage
      else if String.eqb messageType "records.clear" then Some RecordsClearMessage
      else None
  end.

(** [now] is the reading of [Date.now()]. *)
Definition parseRequestWillBeSent (now : Z) (v : value) : option PendingRequest.t :=
  if negb (isRecord v) then None else
  match truthyString (asString (prop v "requestId")) with
  | None => None
  | Some requestId =>
      let requestValue := prop v "request" in
      if negb (isRecord requestValue) then None else
      let url := asString (prop requestValue "url") in
      let method := asString (prop requestValue "method") in
      match truthyString url, truthyString method with
      | Some url, Some method =>
          let requestPostData := asString (prop requestValue "postData") in
          let hasPostData := asBoolean (prop requestValue "hasPostData") in
          let resolvedHasPostData :=
            match hasPostData with
            | Some b => b
            | None => bool_decide (requestPostData <> None)
            end in
          match truthyString (asString (prop v "type")) with
          | None => None
          | Some resourceType =>
              if negb (isAllowedResourceType resourceType) then None else
              Some (PendingRequest.mk requestId url method resolvedHasPostData
                      requestPostData 0 "" resourceType now)
          end
      | _, _ => None
      end
  end.

Definition applyResponseReceived (pending : PendingRequest.t) (v : value)
  : option PendingRequest.t :=
  if negb (isRecord v) then None else
  let responseValue := prop v "response" in
  if negb (isRecord responseValue) then None else
  let status := asNumber (prop responseValue "status") in
  let mimeType := asString (prop responseValue "mimeType") in
  match status, truthyString mimeType with
  | Some status, Some mimeType =>
      let resourceType := asString (prop v "type") in
      if match truthyString resourceType with
         | Some r => negb (isAllowedResourceType r)
         | None => false
         end
      then None
      else
        Some (PendingRequest.mk
                (PendingRequest.requestId pending)
                (PendingRequest.url pending)
                (PendingRequest.method pending)
                (PendingRequest.hasPostData pending)
                (PendingRequest.requestPostData pending)
                status
                mimeType
                (default (PendingRequest.resourceType pending) resourceType)
                (PendingRequest.timeStamp pending))
  | _, _ => None
  end.

Definition parseLoadingFinished (v : value) : option (string * Z) :=
  if negb (isRecord v) then None else
  match truthyString (asString (prop v "requestId")) with
  | None => None
  | Some requestId =>
      match asNumber (prop v "encodedDataLength") with
      | None => None
      | Some encodedDataLength => Some (requestId, encodedDataLength)
      end
  end.

Definition parseLoadingFailed (v : value) : option string :=
  if negb (isRecord v) then None else
  truthyString (asString (prop v "requestId")).

(* ------------------------------------------------------------------- *)
(** *** Terminal events *)

Definition deletePending (requestId : string) (s : State) : State :=
  setPendingRequests (delete requestId (pendingRequests s)) s.

Definition clearPending (s : State) : State := setPendingRequests ∅ s.

Definition handleLoadingFinished (requestId : string) (encodedDataLength : Z)
  : Promise unit :=
  fun s =>
    match attachedTabId s with
    | None => resolve tt s
    | Some _ =>
        match pendingRequests s !! requestId with
        | None => resolve tt s
        | Some pending =>
            (await requestBody :=
               buildRequestBody (attachedTabId s) requestId
                 (PendingRequest.hasPostData pending)
                 (PendingRequest.requestPostData pending) in
             await body :=
               (fun s' => buildResponseBody (attachedTabId s') requestId
                            encodedDataLength s') in
             let record :=
               ResponseRecord.mk requestId
                 (PendingRequest.url pending)
                 (PendingRequest.method pending)
                 (PendingRequest.status pending)
                 (PendingRequest.mimeType pending)
                 (PendingRequest.resourceType pending)
                 (PendingRequest.timeStamp pending)
                 encodedDataLength requestBody body in
             act (deletePending requestId) ;;
             act (pushRecord record)) s
        end
    end.

Definition requestFailedBody : ResponseBody.t :=
  ResponseBody.mk None false false
    (Some (createError "REQUEST_FAILED" "请求失败，未获取响应体" VUndefined)).

Definition handleLoadingFailed (requestId : string) : Promise unit :=
  fun s =>
    match attachedTabId s with
    | None => resolve tt s
    | Some _ =>
        match pendingRequests s !! requestId with
        | None => resolve tt s
        | Some pending =>
            (await requestBody :=
               buildRequestBody (attachedTabId s) requestId
                 (PendingRequest.hasPostData pending)
                 (PendingRequest.requestPostData pending) in
             let body := requestFailedBody in
             let record :=
               ResponseRecord.mk requestId
                 (PendingRequest.url pending)
                 (PendingRequest.method pending)
                 (PendingRequest.status pending)
                 (PendingRequest.mimeType pending)
                 (PendingRequest.resourceType pending)
                 (PendingRequest.timeStamp pending)
                 0 requestBody body in
             act (deletePending requestId) ;;
             act (pushRecord record)) s
        end
    end.

(* ------------------------------------------------------------------- *)
(** *** The event router *)

(** [source.tabId !== attachedTabId] negated: [source.tabId] is a number
    or [undefined], [attachedTabId] a number or [null]. *)
Definition sameTab (sourceTabId attached : option Z) : bool :=
  match sourceTabId, attached with
  | Some a, Some b => Z.eqb a b
  | _, _ => false
  end.

Definition handleDebuggerEvent (now : Z) (sourceTabId : option Z) (method : string)
           (params : value) : State -> Susp unit :=
  fun s =>
    if negb (sameTab sourceTabId (attachedTabId s)) then Return s tt
    else if String.eqb method EVENT_REQUEST_WILL_BE_SENT then
      match parseRequestWillBeSent now params with
      | None => Return s tt
      | Some pending =>
          Return (setPendingRequests
                    (<[PendingRequest.requestId pending := pending]> (pendingRequests s)) s) tt
      end
    else if String.eqb method EVENT_RESPONSE_RECEIVED then
      if negb (isRecord params) then Return s tt else
      match truthyString (asString (prop params "requestId")) with
      | None => Return s tt
      | Some requestId =>
          match pendingRequests s !! requestId with
          | None => Return s tt
          | Some existing =>
              match applyResponseReceived existing params with
              | None => Return s tt
              | Some updated =>
                  Return (setPendingRequests
                            (<[requestId := updated]> (pendingRequests s)) s) tt
              end
          end
      end
    else if String.eqb method EVENT_LOADING_FINISHED then
      match parseLoadingFinished params with
      | None => Return s tt
      | Some (requestId, encodedDataLength) =>
          void (handleLoadingFinished requestId encodedDataLength) s
      end
    else if String.eqb method EVENT_LOADING_FAILED then
      match parseLoadingFailed params with
      | None => Return s tt
      | Some requestId => void (handleLoadingFailed requestId) s
      end
    else Return s tt.

(* ------------------------------------------------------------------- *)
(** *** The session controller *)

Definition detachFromTab (tabId : Z) : Promise unit :=
  fun s =>
    if negb (sameTab (Some tabId) (attachedTabId s)) then resolve tt s
    else
      (debuggerDetach tabId ;;
       act (setAttachedTabId None) ;;
       act clearPending ;;
       act sendStatusUpdate) s.

Definition attachToTab (tabId : Z) : Promise unit :=
  fun s =>
    if sameTab (Some tabId) (attachedTabId s) then resolve tt s
    else
      ((fun s' => match attachedTabId s' with
                  | Some attached => detachFromTab attached s'
                  | None => resolve tt s'
                  end) ;;
       act clearPending ;;
       act (setRecordBuffer []) ;;
       debuggerAttach tabId "1.3" ;;
       sendDebuggerCommand (Some tabId) "Network.enable" VUndefined ;;
       act (setAttachedTabId (Some tabId)) ;;
       act sendStatusUpdate ;;
       act (fun s' => broadcast (RecordsSnapshotMessage (recordBuffer s') (attachedTabId s')) s')) s.

Definition sendSnapshotToAll (s : State) : State :=
  fold_left (fun s port => sendSnapshot port s) (panelPorts s) s.

Definition clearRecords (s : State) : State :=
  sendSnapshotToAll (clearPending (setRecordBuffer [] s)).

Definition handlePanelMessage (m : PanelToBackgroundMessage) : State -> Susp unit :=
  match m with
  | DebuggerAttachMessage tabId =>
      void (tryCatch (attachToTab tabId)
              (fun error => act (sendError (createError "ATTACH_FAILED" "附加调试器失败" error))))
  | DebuggerDetachMessage tabId =>
      void (tryCatch (detachFromTab tabId)
              (fun error => act (sendError (createError "DETACH_FAILED" "解除调试器失败" error))))
  | DebuggerStatusMessage => fun s => Return (sendStatusUpdate s) tt
  | RecordsGetMessage => fun s => Return (sendSnapshotToAll s) tt
  | RecordsClearMessage => fun s => Return (clearRecords s) tt
  end.

(** [handlePortConnection]: the port joins the set and is sent a snapshot. *)
Definition handlePortConnection (port : Port) (name : string) (s : State) : State :=
  if negb (String.eqb name "panel") then s
  else
    let ports := if existsb (Nat.eqb port) (panelPorts s)
                 then panelPorts s
                 else panelPorts s ++ [port] in
    sendSnapshot port (setPanelPorts ports s).

(** The [port.onMessage] listener. *)
Definition onPortMessage (rawMessage : value) : State -> Susp unit :=
  fun s =>
    match parsePanelMessage rawMessage with
    | None => Return s tt
    | Some m => handlePanelMessage m s
    end.

(** The [port.onDisconnect] listener. *)
Definition onPortDisconnect (port : Port) (s : State) : State :=
  setPanelPorts (filter (fun p => p <> port) (panelPorts s)) s.

(** The [chrome.debugger.onDetach] listener. *)
Definition onDetach (sourceTabId : option Z) (s : State) : State :=
  if negb (sameTab sourceTabId (attachedTabId s)) then s
  else sendStatusUpdate (clearPending (setAttachedTabId None s)).

End Background.
Import Background.

(* ===================================================================== *)
(** ** Executions of suspended computations *)
(* ===================================================================== *)

(** What happens while a call is in flight: given the call and the state at
    the suspension, the reply its callback finds and the state at that time
    (other handlers may have run in between). *)
Definition World : Type := Call -> State -> Reply * State.

(** [run world m]: drive [m] to its end, answering every call from [world].
    Returns the calls issued (in order), the final state and the result. *)
Fixpoint run {A} (world : World) (m : Susp A) : list Call * State * A :=
  match m with
  | Return s a => ([], s, a)
  | Await s c k =>
      let '(reply, s') := world c s in
      let '(calls, final, a) := run world (k reply s') in
      (c :: calls, final, a)
  end.

Definition callsOf {A} (r : list Call * State * A) : list Call := fst (fst r).
Definition stateOf {A} (r : list Call * State * A) : State := snd (fst r).
Definition resultOf {A} (r : list Call * State * A) : A := snd r.

(** A property of every execution, whatever the replies and whatever the
    state has become at each resumption: only calls in [C] are issued and the
    computation ends with [Q]. *)
Inductive Always {A} (C : Call -> Prop) (Q : State -> A -> Prop) : Susp A -> Prop :=
| Always_Return s a : Q s a -> Always C Q (Return s a)
| Always_Await s c k :
    C c -> (forall reply s', Always C Q (k reply s')) -> Always C Q (Await s c k).

(** The body-read commands of the DevTools protocol. *)
Definition isResponseBodyRead (c : Call) : bool :=
  match c with
  | DebuggerSendCommand _ method _ => String.eqb method "Network.getResponseBody"
  | _ => false
  end.

Definition isRequestBodyRead (c : Call) : bool :=
  match c with
  | DebuggerSendCommand _ method _ => String.eqb method "Network.getRequestPostData"
  | _ => false
  end.

(** The messages of type [records.added] among a list of posted messages. *)
Definition addedRecords (log : list (Port * BackgroundToPanelMessage))
  : list (Port * ResponseRecord.t) :=
  flat_map (fun pm => match snd pm with
                      | RecordsAddedMessage r => [(fst pm, r)]
                      | _ => []
                      end) log.

(** [n] pushes into the record store, first element first. *)
Definition pushAll (records : list ResponseRecord.t) (s : State) : State :=
  fold_left (fun s r => pushRecord r s) records s.

(** The record built by [handleLoadingFailed] and by [handleLoadingFinished]
    from the pending request captured before the first [await]. *)
Definition failedRecord (requestId : string) (pending : PendingRequest.t)
           (requestBody : RequestBody.t) : ResponseRecord.t :=
  ResponseRecord.mk requestId
    (PendingRequest.url pending) (PendingRequest.method pending)
    (PendingRequest.status pending) (PendingRequest.mimeType pending)
    (PendingRequest.resourceType pending) (PendingRequest.timeStamp pending)
    0 requestBody requestFailedBody.

Definition finishedRecord (requestId : string) (pending : PendingRequest.t)
           (encodedDataLength : Z) (requestBody : RequestBody.t) (body : ResponseBody.t)
  : ResponseRecord.t :=
  ResponseRecord.mk requestId
    (PendingRequest.url pending) (PendingRequest.method pending)
    (PendingRequest.status pending) (PendingRequest.mimeType pending)
    (PendingRequest.resourceType pending) (PendingRequest.timeStamp pending)
    encodedDataLength requestBody body.

(* ===================================================================== *)
(** ** What the panel-side validators accept *)
(* ===================================================================== *)

(** The guards of the validators, read on typed values: the strings tested
    with [!x] must be non-empty. *)
Module Accepted.

Definition nonEmpty (x : string) : bool := negb (String.eqb x "").

Definition appError (e : AppError.t) : bool :=
  nonEmpty (AppError.code e) && nonEmpty (AppError.message e).

Definition optionalError (e : option AppError.t) : bool :=
  match e with
  | Some e => appError e
  | None => true
  end.

Definition responseRecord (r : ResponseRecord.t) : bool :=
  nonEmpty (ResponseRecord.id r)
  && nonEmpty (ResponseRecord.url r)
  && nonEmpty (ResponseRecord.method r)
  && nonEmpty (ResponseRecord.mimeType r)
  && nonEmpty (ResponseRecord.resourceType r)
  && optionalError (RequestBody.error (ResponseRecord.requestBody r))
  && optionalError (ResponseBody.error (ResponseRecord.body r)).

Definition backgroundMessage (m : BackgroundToPanelMessage) : bool :=
  match m with
  | DebuggerStatusUpdateMessage _ => true
  | RecordsSnapshotMessage records _ => forallb responseRecord records
  | RecordsAddedMessage record => responseRecord record
  | ErrorMessage error => appError error
  end.

End Accepted.

(* ===================================================================== *)
(** ** Concrete sessions used as test inputs *)
(* ===================================================================== *)

Module Scenario.

(** Every call succeeds at once with an empty result object and nothing
    else runs in between. *)
Definition quiet : World := fun _ s => (Result (VObj []), s).

(** The response body read succeeds with a small text body. *)
Definition serving : World :=
  fun c s =>
    if isResponseBodyRead c
    then (Result (VObj [("body", VStr "{a:1}"); ("base64Encoded", VBool false)]), s)
    else (Result (VObj []), s).

Definition announce (requestId resourceType : string) : value :=
  VObj [("requestId", VStr requestId);
        ("request", VObj [("url", VStr "https://x/y"); ("method", VStr "GET")]);
        ("type", VStr resourceType)].

Definition headers (requestId resourceType : string) : value :=
  VObj [("requestId", VStr requestId);
        ("response", VObj [("status", num 200); ("mimeType", VStr "application/json")]);
        ("type", VStr resourceType)].

Definition finished (requestId : string) (encodedDataLength : Z) : value :=
  VObj [("requestId", VStr requestId); ("encodedDataLength", num encodedDataLength)].

Definition failed (requestId : string) : value :=
  VObj [("requestId", VStr requestId)].

(** One panel connected, attached to tab 7. *)
Definition attached7 : State :=
  stateOf (run quiet
    (handlePanelMessage (DebuggerAttachMessage 7)
       (handlePortConnection 1%nat "panel" initialState))).

(** ... and request [r1] announced at time 1000. *)
Definition announced_r1 : State :=
  stateOf (run quiet
    (handleDebuggerEvent 1000 (Some 7) EVENT_REQUEST_WILL_BE_SENT
       (announce "r1" "Fetch") attached7)).

(** ... and its response headers received. *)
Definition headers_r1 : State :=
  stateOf (run quiet
    (handleDebuggerEvent 1001 (Some 7) EVENT_RESPONSE_RECEIVED
       (headers "r1" "Fetch") announced_r1)).

(** The record of [r1] when its loading fails before any headers. *)
Definition failed_r1 : ResponseRecord.t :=
  ResponseRecord.mk "r1" "https://x/y" "GET" 0 "" "Fetch" 1000 0
    (RequestBody.mk None false None) requestFailedBody.

(** The pending request of [r1] as announced, and after headers of type
    [XHR]. *)
Definition pending_r1 : PendingRequest.t :=
  PendingRequest.mk "r1" "https://x/y" "GET" false None 0 "" "Fetch" 1000.


(** A completed record captured at time [n]. *)
Definition sample (n : nat) : ResponseRecord.t :=
  ResponseRecord.mk "r" "https://x/y" "GET" 200 "text/plain" "XHR" (Z.of_nat n) 0
    (RequestBody.mk None false None) (ResponseBody.mk (Some "ok") false false None).

(** While a call is in flight the panel asks to detach from tab 7 and the
    detach completes. *)
Definition detaching : World :=
  fun c s =>
    (Result (VObj [("body", VStr "{a:1}"); ("base64Encoded", VBool false)]),
     stateOf (run quiet (handlePanelMessage (DebuggerDetachMessage 7) s))).

End Scenario.


(* ===================================================================== *)
(** ** The panel: commands sent and messages received *)
(* ===================================================================== *)

(** The object literals the panel hands to [sendPanelMessage], one per
    interface of [PanelToBackgroundMessage]. *)
Module PanelWire.

Definition ofPanelMessage (m : PanelToBackgroundMessage) : value :=
  match m with
  | DebuggerAttachMessage tabId =>
      VObj [("type", VStr "debugger.attach"); ("tabId", num tabId)]
  | DebuggerDetachMessage tabId =>
      VObj [("type", VStr "debugger.detach"); ("tabId", num tabId)]
  | DebuggerStatusMessage => VObj [("type", VStr "debugger.status")]
  | RecordsGetMessage => VObj [("type", VStr "records.get")]
  | RecordsClearMessage => VObj [("type", VStr "records.clear")]
  end.

End PanelWire.

(** The state variables of the panel's [App] that its [port.onMessage]
    listener writes, and the listener. *)
Module PanelView.

Record t : Type := mk {
  records : list ResponseRecord.t;
  attachedTabId : option Z;
  errorMessage : option string
}.

(** [useState([])], [useState(null)], [useState(null)]. *)
Definition initial : t := mk [] None None.

(** The four branches of the listener, on a message that passed
    [parseBackgroundMessage]. *)
Definition reduce (m : BackgroundToPanelMessage) (v : t) : t :=
  match m with
  | DebuggerStatusUpdateMessage tab => mk (records v) tab (errorMessage v)
  | RecordsSnapshotMessage rs tab => mk rs tab (errorMessage v)
  | RecordsAddedMessage r => mk (records v ++ [r]) (attachedTabId v) (errorMessage v)
  | ErrorMessage e => mk (records v) (attachedTabId v) (Some (AppError.message e))
  end.

Definition onMessage (rawMessage : value) (v : t) : t :=
  match Panel.parseBackgroundMessage rawMessage with
  | None => v
  | Some m => reduce m v
  end.

(** [isAttached]: [attachedTabId === tabId] for the inspected tab. *)
Definition isAttached (tabId : Z) (v : t) : bool :=
  match attachedTabId v with
  | Some a => Z.eqb a tabId
  | None => false
  end.

(** The panel behind [port] after it has received, in order, everything
    the background posted to that port. *)
Definition replay (port : Port) (log : list (Port * BackgroundToPanelMessage)) : t :=
  fold_left (fun v pm =>
               if Nat.eqb (fst pm) port
               then onMessage (Wire.ofBackgroundMessage (snd pm)) v
               else v) log initial.

(** The same when no message is dropped by the validators. *)
Definition replayParsed (port : Port) (log : list (Port * BackgroundToPanelMessage)) : t :=
  fold_left (fun v pm => if Nat.eqb (fst pm) port then reduce (snd pm) v else v)
            log initial.

End PanelView.

(* ===================================================================== *)
(** ** The service worker as an event loop *)
(* ===================================================================== *)

(** The listeners registered at the end of [index.ts] and in
    [handlePortConnection], driven by what Chrome delivers. *)
Module Loop.

Inductive Input : Type :=
| PortConnect (port : Port) (name : string)
| PortMessage (port : Port) (rawMessage : value)
| PortDisconnect (port : Port)
| DebuggerEvent (now : Z) (sourceTabId : option Z) (method : string) (params : value)
| DebuggerDetached (sourceTabId : option Z)
| Callback (index : nat) (reply : Reply).

(** The module-level variables and the calls whose callbacks have not fired
    yet, each with the rest of the [async] function that awaits it. *)
Record Machine : Type := mkMachine {
  state : State;
  inFlight : list (Call * (Reply -> State -> Susp unit))
}.

Definition boot : Machine := mkMachine initialState [].

(** A listener has run up to its end or to its next [await]. *)
Definition settle (m : Susp unit) (others : list (Call * (Reply -> State -> Susp unit)))
  : Machine :=
  match m with
  | Return s _ => mkMachine s others
  | Await s c k => mkMachine s (others ++ [(c, k)])
  end.

Definition step (M : Machine) (input : Input) : Machine :=
  match input with
  | PortConnect port name =>
      mkMachine (handlePortConnection port name (state M)) (inFlight M)
  | PortMessage port rawMessage =>
      (* only a connected port named [panel] has the listener *)
      if existsb (Nat.eqb port) (panelPorts (state M))
      then settle (onPortMessage rawMessage (state M)) (inFlight M)
      else M
  | PortDisconnect port =>
      mkMachine (onPortDisconnect port (state M)) (inFlight M)
  | DebuggerEvent now sourceTabId method params =>
      settle (handleDebuggerEvent now sourceTabId method params (state M)) (inFlight M)
  | DebuggerDetached sourceTabId =>
      mkMachine (onDetach sourceTabId (state M)) (inFlight M)
  | Callback index reply =>
      match inFlight M !! index with
      | None => M
      | Some (_, k) => settle (k reply (state M)) (delete index (inFlight M))
      end
  end.

Definition runLoop (inputs : list Input) : Machine := fold_left step inputs boot.

End Loop.

(** [Guard R G Q m]: if the state satisfies [R] whenever [m] is resumed,
    then it satisfies [G] whenever [m] suspends or returns, and [m] returns
    a result in [Q]. *)
Inductive Guard {A} (R G : State -> Prop) (Q : A -> Prop) : Susp A -> Prop :=
| Guard_Return s a : G s -> Q a -> Guard R G Q (Return s a)
| Guard_Await s c k :
    G s -> (forall reply s', R s' -> Guard R G Q (k reply s')) ->
    Guard R G Q (Await s c k).

(** The state of a machine satisfies [I] and so will every continuation in
    flight. *)
Definition machineKeeps (I : State -> Prop) (M : Loop.Machine) : Prop :=
  I (Loop.state M)
  /\ Forall (fun ck => forall reply s, I s -> Guard I I (fun _ => True) (snd ck reply s))
            (Loop.inFlight M).

(** Every listener keeps [I]. *)
Record ListenersKeep (I : State -> Prop) : Prop := {
  keep_connect : forall port name s, I s -> I (handlePortConnection port name s);
  keep_message : forall raw s, I s -> Guard I I (fun _ => True) (onPortMessage raw s);
  keep_disconnect : forall port s, I s -> I (onPortDisconnect port s);
  keep_event : forall now source method params s,
      I s -> Guard I I (fun _ => True) (handleDebuggerEvent now source method params s);
  keep_detached : forall source s, I s -> I (onDetach source s)
}.

(** What holds of every request and record the background builds. *)
Module Wellformed.

(** A pending request stored under [key]. *)
Definition pending (key : string) (p : PendingRequest.t) : bool :=
  String.eqb (PendingRequest.requestId p) key
  && Accepted.nonEmpty key
  && Accepted.nonEmpty (PendingRequest.url p)
  && Accepted.nonEmpty (PendingRequest.method p)
  && (isAllowedResourceType (PendingRequest.resourceType p)
      || String.eqb (PendingRequest.resourceType p) "").

(** The guards of [parseResponseRecord] other than those on [mimeType] and
    [resourceType]. *)
Definition record (r : ResponseRecord.t) : bool :=
  Accepted.nonEmpty (ResponseRecord.id r)
  && Accepted.nonEmpty (ResponseRecord.url r)
  && Accepted.nonEmpty (ResponseRecord.method r)
  && Accepted.optionalError (RequestBody.error (ResponseRecord.requestBody r))
  && Accepted.optionalError (ResponseBody.error (ResponseRecord.body r)).

Definition message (m : BackgroundToPanelMessage) : bool :=
  match m with
  | DebuggerStatusUpdateMessage _ => true
  | RecordsSnapshotMessage records _ => forallb record records
  | RecordsAddedMessage r => record r
  | ErrorMessage error => Accepted.appError error
  end.

(** A request body as [buildRequestBody] leaves it: a text is within the
    threshold and comes alone. *)
Definition requestBody (b : RequestBody.t) : bool :=
  Accepted.optionalError (RequestBody.error b)
  && match RequestBody.text b with
     | Some text =>
         (getTextByteLength text <=? MAX_REQUEST_BODY_BYTES)
         && negb (RequestBody.truncated b)
         && bool_decide (RequestBody.error b = None)
     | None => true
     end.

(** A response body as [buildResponseBody] and [handleLoadingFailed] leave
    it: a text comes alone. *)
Definition responseBody (b : ResponseBody.t) : bool :=
  Accepted.optionalError (ResponseBody.error b)
  && match ResponseBody.text b with
     | Some _ =>
         negb (ResponseBody.truncated b) && bool_decide (ResponseBody.error b = None)
     | None => true
     end.

(** The two guards left: the response headers gave a [mimeType] and the
    [resourceType] is not empty. *)
Definition recordHasHeaders (r : ResponseRecord.t) : bool :=
  Accepted.nonEmpty (ResponseRecord.mimeType r)
  && Accepted.nonEmpty (ResponseRecord.resourceType r).

Definition messageHasHeaders (m : BackgroundToPanelMessage) : bool :=
  match m with
  | RecordsSnapshotMessage records _ => forallb recordHasHeaders records
  | RecordsAddedMessage r => recordHasHeaders r
  | _ => true
  end.

End Wellformed.

(** A world in which nothing else runs while a call is in flight: the
    reply depends on the call only. *)
Definition answering (oracle : Call -> Reply) : World := fun c s => (oracle c, s).

(** [Reads s Q m]: [m], started on [s], never writes the state: it suspends
    on the state it was started or resumed with, returns on the state it was
    last resumed with, and returns a result in [Q]. *)
Inductive Reads {A} (Q : A -> Prop) : State -> Susp A -> Prop :=
| Reads_Return s a : Q a -> Reads Q s (Return s a)
| Reads_Await s c k : (forall reply s', Reads Q s' (k reply s')) -> Reads Q s (Await s c k).

(** The synchronous stretches of the listeners: a property of states kept
    by each of them is kept by every listener, see [ListenersKeep]. *)
Record StretchesKeep (I : State -> Prop) : Prop := {
  stretch_connect : forall port name s, I s -> I (handlePortConnection port name s);
  stretch_disconnect : forall port s, I s -> I (onPortDisconnect port s);
  stretch_detached : forall s,
      I s -> I (sendStatusUpdate (clearPending (setAttachedTabId None s)));
  stretch_reset : forall s, I s -> I (setRecordBuffer [] (clearPending s));
  stretch_attached : forall t s,
      I s ->
      I (let s1 := sendStatusUpdate (setAttachedTabId (Some t) s) in
         broadcast (RecordsSnapshotMessage (recordBuffer s1) (attachedTabId s1)) s1);
  stretch_error : forall e s, Accepted.appError e = true -> I s -> I (sendError e s);
  stretch_status : forall s, I s -> I (sendStatusUpdate s);
  stretch_snapshots : forall s, I s -> I (sendSnapshotToAll s);
  stretch_clear : forall s, I s -> I (clearRecords s);
  stretch_announce : forall now params pending t s,
      I s -> attachedTabId s = Some t ->
      parseRequestWillBeSent now params = Some pending ->
      I (setPendingRequests
           (<[PendingRequest.requestId pending := pending]> (pendingRequests s)) s);
  stretch_headers : forall params requestId existing updated t s,
      I s -> attachedTabId s = Some t ->
      pendingRequests s !! requestId = Some existing ->
      applyResponseReceived existing params = Some updated ->
      I (setPendingRequests (<[requestId := updated]> (pendingRequests s)) s);
  stretch_push : forall s0 s requestId pending encodedDataLength requestBody body,
      I s0 -> pendingRequests s0 !! requestId = Some pending ->
      Wellformed.requestBody requestBody = true ->
      Wellformed.responseBody body = true ->
      I s ->
      I (pushRecord (finishedRecord requestId pending encodedDataLength requestBody body)
                    (deletePending requestId s))
}.

(** Properties of the states of the service worker. *)
Module Invariant.

Definition capacity (s : State) : Prop :=
  (length (recordBuffer s) <= MAX_RECORDS)%nat.

Definition idle (s : State) : Prop :=
  attachedTabId s = None -> pendingRequests s = ∅.

Definition pendings (s : State) : Prop :=
  forall key p, pendingRequests s !! key = Some p -> Wellformed.pending key p = true.

Definition records (s : State) : Prop :=
  Forall (fun r => Wellformed.record r = true) (recordBuffer s)
  /\ Forall (fun pm => Wellformed.message (snd pm) = true) (posted s).

Definition bodies (s : State) : Prop :=
  Forall (fun r => Wellformed.requestBody (ResponseRecord.requestBody r) = true
                   /\ Wellformed.responseBody (ResponseRecord.body r) = true)
         (recordBuffer s).

Definition ports (s : State) : Prop := NoDup (panelPorts s).

(** Every connected panel that parsed all it was sent knows the attached
    tab and holds every record of the store, in the same order, at the end
    of its list. *)
Definition panels (s : State) : Prop :=
  forall port, port ∈ panelPorts s ->
    PanelView.attachedTabId (PanelView.replayParsed port (posted s)) = attachedTabId s
    /\ recordBuffer s `suffix_of` PanelView.records (PanelView.replayParsed port (posted s)).

(** The two invariants on what the background builds, and the two on what
    the panels are sent, are kept together. *)
Definition built (s : State) : Prop := pendings s /\ records s.

Definition connected (s : State) : Prop := ports s /\ panels s.

End Invariant.

(** Sessions of the event loop used as test inputs. *)
Module Session.

Definition ok : Reply := Result (VObj []).

Definition bodyRead : Reply :=
  Result (VObj [("body", VStr "{a:1}"); ("base64Encoded", VBool false)]).

(** A panel connects and attaches to tab 7; request [r1] is announced, gets
    its headers and finishes; its body is read. *)
Definition capture : list Loop.Input :=
  [Loop.PortConnect 1%nat "panel";
   Loop.PortMessage 1%nat (PanelWire.ofPanelMessage (DebuggerAttachMessage 7));
   Loop.Callback 0 ok;
   Loop.Callback 0 ok;
   Loop.DebuggerEvent 1000 (Some 7) EVENT_REQUEST_WILL_BE_SENT (Scenario.announce "r1" "Fetch");
   Loop.DebuggerEvent 1001 (Some 7) EVENT_RESPONSE_RECEIVED (Scenario.headers "r1" "Fetch");
   Loop.DebuggerEvent 1002 (Some 7) EVENT_LOADING_FINISHED (Scenario.finished "r1" 10);
   Loop.Callback 0 bodyRead].

(** ... then [r2] is announced and Chrome revokes the debugger. *)
Definition revoked : list Loop.Input :=
  capture
  ++ [Loop.DebuggerEvent 1003 (Some 7) EVENT_REQUEST_WILL_BE_SENT (Scenario.announce "r2" "XHR");
      Loop.DebuggerDetached (Some 7)].

(** ... or [r2] is announced and still pending. *)
Definition announced_r2 : list Loop.Input :=
  capture
  ++ [Loop.DebuggerEvent 1003 (Some 7) EVENT_REQUEST_WILL_BE_SENT (Scenario.announce "r2" "XHR")].

(** The pending requests and the record of these sessions. *)
Definition request_r1 : PendingRequest.t :=
  PendingRequest.mk "r1" "https://x/y" "GET" false None 200 "application/json" "Fetch" 1000.

Definition request_r1_again : PendingRequest.t :=
  PendingRequest.mk "r1" "https://x/y" "GET" false None 0 "" "Fetch" 1005.

Definition request_r2 : PendingRequest.t :=
  PendingRequest.mk "r2" "https://x/y" "GET" false None 0 "" "XHR" 1003.

Definition record_r1 : ResponseRecord.t :=
  ResponseRecord.mk "r1" "https://x/y" "GET" 200 "application/json" "Fetch" 1000 10
    (RequestBody.mk None false None)
    (ResponseBody.mk (Some "{a:1}") false false None).

(** A debugger that refuses the handshake, and one that refuses every
    command after it. *)
Definition refused : value := VObj [("message", VStr "Cannot access the tab")].

Definition refusingAttach (c : Call) : Reply :=
  match c with
  | DebuggerAttach _ _ => LastError refused
  | _ => ok
  end.

Definition refusingCommands (c : Call) : Reply :=
  match c with
  | DebuggerSendCommand _ _ _ => LastError refused
  | _ => ok
  end.

(** Request [r3] is announced with [hasPostData] and no inline post-data,
    on the session attached to tab 7. *)
Definition announcePost (requestId : string) : value :=
  VObj [("requestId", VStr requestId);
        ("request", VObj [("url", VStr "https://x/login"); ("method", VStr "POST");
                          ("hasPostData", VBool true)]);
        ("type", VStr "XHR")].

Definition request_r3 : PendingRequest.t :=
  PendingRequest.mk "r3" "https://x/login" "POST" true None 0 "" "XHR" 1004.

Definition posting_r3 : State :=
  stateOf (run Scenario.quiet
    (handleDebuggerEvent 1004 (Some 7) EVENT_REQUEST_WILL_BE_SENT
       (announcePost "r3") Scenario.attached7)).

(** The post-data read succeeds with [a=1]. *)
Definition postDataRead : World :=
  fun _ s => (Result (VObj [("postData", VStr "a=1")]), s).

(** An attach command and a status message with a field too many. *)
Definition rawAttach : value :=
  VObj [("type", VStr "debugger.attach"); ("tabId", num 7); ("extra", VNull)].

Definition rawStatus : value :=
  VObj [("type", VStr "status.update"); ("attachedTabId", num 7); ("extra", VBool true)].

End Session.

(* ===================================================================== *)
(** ** Basic facts about the state operations *)
(* ===================================================================== *)

Section StateFacts.

Lemma post_to_all m ports s :
  fold_left (fun s port => postMessage port m s) ports s
  = mkState (attachedTabId s) (panelPorts s) (pendingRequests s) (recordBuffer s)
            (posted s ++ map (fun port => (port, m)) ports).
Proof.
  revert s. induction ports as [|port ports IH]; intros s; simpl.
  - rewrite app_nil_r. by destruct s.
  - rewrite IH. simpl. by rewrite <- app_assoc.
Qed.

Lemma broadcast_unfold m s :
  broadcast m s
  = mkState (attachedTabId s) (panelPorts s) (pendingRequests s) (recordBuffer s)
            (posted s ++ map (fun port => (port, m)) (panelPorts s)).
Proof. apply post_to_all. Qed.

Lemma pushRecord_buffer r s :
  recordBuffer (pushRecord r s)
  = (if (MAX_RECORDS <=? length (recordBuffer s))%nat
     then tail (recordBuffer s) else recordBuffer s) ++ [r].
Proof. unfold pushRecord. by rewrite broadcast_unfold. Qed.

Lemma pushRecord_posted r s :
  posted (pushRecord r s)
  = posted s ++ map (fun port => (port, RecordsAddedMessage r)) (panelPorts s).
Proof. unfold pushRecord. by rewrite broadcast_unfold. Qed.

Lemma pushRecord_pending r s : pendingRequests (pushRecord r s) = pendingRequests s.
Proof. unfold pushRecord. by rewrite broadcast_unfold. Qed.

Lemma pushRecord_ports r s : panelPorts (pushRecord r s) = panelPorts s.
Proof. unfold pushRecord. by rewrite broadcast_unfold. Qed.

Lemma pushRecord_attached r s : attachedTabId (pushRecord r s) = attachedTabId s.
Proof. unfold pushRecord. by rewrite broadcast_unfold. Qed.

Lemma sameTab_true a b : sameTab a b = true <-> exists t, a = Some t /\ b = Some t.
Proof.
  destruct a as [x|], b as [y|]; simpl; split; try discriminate.
  - intros H%Z.eqb_eq. subst. eauto.
  - intros (t & [= ->] & [= ->]). apply Z.eqb_refl.
  - by intros (t & _ & ?).
  - by intros (t & ? & _).
  - by intros (t & ? & _).
Qed.

Lemma sameTab_attached t s :
  sameTab (Some t) (attachedTabId s) = true <-> attachedTabId s = Some t.
Proof.
  rewrite sameTab_true. split.
  - by intros (t' & [= <-] & ?).
  - eauto.
Qed.

End StateFacts.

(* ===================================================================== *)
(** ** The record store *)
(* ===================================================================== *)

Section RecordStore.

Lemma MAX_RECORDS_pos : (1 <= MAX_RECORDS)%nat.
Proof. unfold MAX_RECORDS. lia. Qed.

(** A push keeps the store within its capacity. *)
Lemma pushRecord_within_capacity r s :
  (length (recordBuffer s) <= MAX_RECORDS)%nat ->
  (length (recordBuffer (pushRecord r s)) <= MAX_RECORDS)%nat.
Proof.
  intros Hlen. rewrite pushRecord_buffer.
  pose proof MAX_RECORDS_pos as Hpos.
  destruct (Nat.leb_spec MAX_RECORDS (length (recordBuffer s)));
    rewrite length_app; cbn [length].
  - destruct (recordBuffer s); cbn [length tail] in *; lia.
  - lia.
Qed.

(** After any pushes onto a store within capacity, the store holds the
    last [MAX_RECORDS] elements of what it held followed by the pushes. *)
Lemma pushAll_buffer records s :
  (length (recordBuffer s) <= MAX_RECORDS)%nat ->
  recordBuffer (pushAll records s)
  = drop (length (recordBuffer s ++ records) - MAX_RECORDS) (recordBuffer s ++ records).
Proof.
  revert s. induction records as [|r records IH]; intros s Hlen.
  - simpl. rewrite app_nil_r.
    replace (length (recordBuffer s) - MAX_RECORDS)%nat with 0%nat by lia.
    by rewrite drop_0.
  - change (pushAll (r :: records) s) with (pushAll records (pushRecord r s)).
    rewrite IH by by apply pushRecord_within_capacity.
    rewrite pushRecord_buffer.
    pose proof MAX_RECORDS_pos as Hpos.
    destruct (Nat.leb_spec MAX_RECORDS (length (recordBuffer s))) as [Hfull|Hroom].
    + destruct (recordBuffer s) as [|oldest rest] eqn:Hbuf;
        cbn [length tail] in *; [lia|].
      rewrite <- !app_assoc. cbn [app length].
      assert (MAX_RECORDS <= length (rest ++ r :: records))%nat as Hge
        by (rewrite length_app; cbn [length]; lia).
      replace (S (length (rest ++ r :: records)) - MAX_RECORDS)%nat
        with (S (length (rest ++ r :: records) - MAX_RECORDS))%nat by lia.
      reflexivity.
    + rewrite <- app_assoc. reflexivity.
Qed.

End RecordStore.

(* ===================================================================== *)
(** ** Laws of executions *)
(* ===================================================================== *)

Section ExecutionLaws.

Context {A B : Type}.

Lemma run_bindSusp (world : World) (m : Susp A) (f : A -> State -> Susp B) :
  run world (bindSusp m f)
  = let '(calls1, s1, a) := run world m in
    let '(calls2, s2, b) := run world (f a s1) in
    (calls1 ++ calls2, s2, b).
Proof.
  induction m as [s a|s c k IH]; simpl.
  - by destruct (run world (f a s)) as [[??]?].
  - destruct (world c s) as [reply s']. rewrite IH.
    destruct (run world (k reply s')) as [[calls1 s1] a].
    by destruct (run world (f a s1)) as [[??]?].
Qed.

Lemma Always_bindSusp (C : Call -> Prop) (P : State -> A -> Prop)
      (Q : State -> B -> Prop) (m : Susp A) (f : A -> State -> Susp B) :
  Always C P m ->
  (forall s a, P s a -> Always C Q (f a s)) ->
  Always C Q (bindSusp m f).
Proof.
  intros Hm Hf. induction Hm as [s a HP|s c k HC _ IH]; simpl.
  - by apply Hf.
  - apply Always_Await; [done|]. intros reply s'. apply IH.
Qed.

Lemma Always_run (C : Call -> Prop) (Q : State -> A -> Prop) (m : Susp A) world :
  Always C Q m ->
  Forall C (callsOf (run world m))
  /\ Q (stateOf (run world m)) (resultOf (run world m)).
Proof.
  induction 1 as [s a HQ|s c k HC _ IH]; simpl.
  - split; [constructor|done].
  - destruct (world c s) as [reply s'].
    specialize (IH reply s') as [IHc IHq].
    destruct (run world (k reply s')) as [[calls final] a].
    split; [by constructor|done].
Qed.

End ExecutionLaws.

Lemma run_bind {A B} (world : World) (m : Promise A) (k : A -> Promise B) s :
  run world (bind m k s)
  = let '(calls1, s1, o) := run world (m s) in
    match o with
    | Fulfilled a =>
        let '(calls2, s2, b) := run world (k a s1) in (calls1 ++ calls2, s2, b)
    | Rejected e => (calls1, s1, Rejected e)
    end.
Proof.
  unfold bind. rewrite run_bindSusp.
  destruct (run world (m s)) as [[calls1 s1] [a|e]]; [done|].
  simpl. by rewrite app_nil_r.
Qed.

Lemma run_void {A} (world : World) (m : Promise A) s :
  run world (void m s)
  = let '(calls, final, _) := run world (m s) in (calls, final, tt).
Proof.
  unfold void. rewrite run_bindSusp.
  destruct (run world (m s)) as [[calls final] o]. simpl. by rewrite app_nil_r.
Qed.

(* ===================================================================== *)
(** ** The body fetcher *)
(* ===================================================================== *)

Section BodyFetcher.

(** Resolving a request body never rejects and asks the debugger for
    nothing but the request post-data. *)
Lemma buildRequestBody_always tabId requestId hasPostData requestPostData s :
  Always (fun c => isRequestBodyRead c = true)
         (fun _ o => exists requestBody, o = Fulfilled requestBody)
         (buildRequestBody tabId requestId hasPostData requestPostData s).
Proof.
  unfold buildRequestBody.
  destruct hasPostData, requestPostData as [text|];
    try (destruct (MAX_REQUEST_BODY_BYTES <? getTextByteLength text));
    try (apply Always_Return; eauto).
  destruct tabId as [t|]; [|apply Always_Return; eauto].
  apply Always_Await; [done|].
  intros [result|lastError] s'; simpl; [|apply Always_Return; eauto].
  destruct result; simpl; apply Always_Return; eauto.
Qed.

(** Resolving a response body never rejects either, and asks for nothing
    but the response body. *)
Lemma buildResponseBody_always tabId requestId encodedDataLength s :
  Always (fun c => isResponseBodyRead c = true)
         (fun _ o => exists body, o = Fulfilled body)
         (buildResponseBody tabId requestId encodedDataLength s).
Proof.
  unfold buildResponseBody.
  destruct (MAX_BODY_BYTES <? encodedDataLength); [apply Always_Return; eauto|].
  apply Always_Await; [done|].
  intros [result|lastError] s'; simpl; [|apply Always_Return; eauto].
  destruct result; simpl; apply Always_Return; eauto.
Qed.

End BodyFetcher.

Section SessionController.

Lemma broadcast_attached m s : attachedTabId (broadcast m s) = attachedTabId s.
Proof. by rewrite broadcast_unfold. Qed.

Lemma attachToTab_attached_noop t s :
  attachedTabId s = Some t -> attachToTab t s = Return s (Fulfilled tt).
Proof.
  intros H%sameTab_attached. unfold attachToTab. by rewrite H.
Qed.

Lemma detachFromTab_other_noop t s :
  attachedTabId s <> Some t -> detachFromTab t s = Return s (Fulfilled tt).
Proof.
  intros H. unfold detachFromTab.
  destruct (sameTab (Some t) (attachedTabId s)) eqn:E; [|done].
  by apply sameTab_attached in E.
Qed.

(** Detaching never rejects. *)
Lemma detachFromTab_always t s :
  Always (fun _ => True) (fun _ o => o = Fulfilled tt) (detachFromTab t s).
Proof.
  unfold detachFromTab.
  destruct (sameTab (Some t) (attachedTabId s)); simpl.
  - apply Always_Await; [done|]. intros reply s'. by apply Always_Return.
  - by apply Always_Return.
Qed.

(** An attach that fulfils leaves the session attached to its target. *)
Lemma attachToTab_always t s :
  Always (fun _ => True)
         (fun final o => o = Fulfilled tt -> attachedTabId final = Some t)
         (attachToTab t s).
Proof.
  unfold attachToTab.
  destruct (sameTab (Some t) (attachedTabId s)) eqn:E.
  { apply Always_Return. intros _. by apply sameTab_attached. }
  unfold bind at 1.
  eapply Always_bindSusp.
  { destruct (attachedTabId s) as [attached|].
    - apply detachFromTab_always.
    - apply (Always_Return _ (fun _ o => o = Fulfilled tt)). done. }
  intros s1 o ->. simpl.
  apply Always_Await; [done|]. intros [r1|e1] s2; simpl;
    [|by apply Always_Return].
  apply Always_Await; [done|]. intros [r2|e2] s3; simpl;
    [|by apply Always_Return].
  apply Always_Return. intros _.
  rewrite broadcast_attached. unfold sendStatusUpdate.
  by rewrite broadcast_attached.
Qed.

End SessionController.

(* ===================================================================== *)
(** ** Properties of the specification *)
(* ===================================================================== *)

(** C2.  Starting from an empty Record Store, after the records of any list
    have been pushed one by one the store holds [min N MAX_RECORDS] records,
    namely the last [MAX_RECORDS] of the list in the order they were pushed;
    a push onto a full store drops exactly its first (oldest) entry, and a
    push onto a store with room drops nothing. *)
Theorem record_store_keeps_most_recent (s : State) (records : list ResponseRecord.t) :
  recordBuffer s = [] ->
  length (recordBuffer (pushAll records s)) = Nat.min (length records) MAX_RECORDS
  /\ recordBuffer (pushAll records s) = drop (length records - MAX_RECORDS) records
  /\ (forall r s', length (recordBuffer s') = MAX_RECORDS ->
                   recordBuffer (pushRecord r s') = tail (recordBuffer s') ++ [r])
  /\ (forall r s', (length (recordBuffer s') < MAX_RECORDS)%nat ->
                   recordBuffer (pushRecord r s') = recordBuffer s' ++ [r]).
Proof.
  intros Hempty.
  assert (recordBuffer (pushAll records s) = drop (length records - MAX_RECORDS) records)
    as Hstore.
  { rewrite pushAll_buffer by (rewrite Hempty; cbn [length]; lia).
    by rewrite Hempty. }
  split; [|split; [done|split]].
  - rewrite Hstore, length_drop. lia.
  - intros r s' Hfull. rewrite pushRecord_buffer.
    destruct (Nat.leb_spec MAX_RECORDS (length (recordBuffer s'))); [done|lia].
  - intros r s' Hroom. rewrite pushRecord_buffer.
    destruct (Nat.leb_spec MAX_RECORDS (length (recordBuffer s'))); [lia|done].
Qed.

(** C3.  When the declared [encodedDataLength] exceeds [MAX_BODY_BYTES],
    [buildResponseBody] returns at once, on the unchanged state, a body with
    no text, [truncated = true] and an error of code [BODY_TOO_LARGE]; no
    call is made to the debugger. *)
Theorem oversized_response_is_not_read
        (tabId : option Z) (requestId : string) (encodedDataLength : Z) (s : State) :
  MAX_BODY_BYTES < encodedDataLength ->
  exists error,
    buildResponseBody tabId requestId encodedDataLength s
    = Return s (Fulfilled (ResponseBody.mk None false true (Some error)))
    /\ AppError.code error = "BODY_TOO_LARGE"
    /\ forall world,
         callsOf (run world (buildResponseBody tabId requestId encodedDataLength s)) = [].
Proof.
  intros Hbig%Z.ltb_lt. unfold buildResponseBody. rewrite Hbig.
  eexists. split; [reflexivity|]. split; [reflexivity|]. done.
Qed.

(** C4.  For a request with [hasPostData = false] and no inline post-data,
    [buildRequestBody] returns at once, on the unchanged state, a body with
    no text, [truncated = false] and no error; no call is made to the
    debugger. *)
Theorem request_without_post_data_has_empty_body
        (tabId : option Z) (requestId : string) (s : State) :
  buildRequestBody tabId requestId false None s
  = Return s (Fulfilled (RequestBody.mk None false None))
  /\ forall world,
       run world (buildRequestBody tabId requestId false None s)
       = ([], s, Fulfilled (RequestBody.mk None false None)).
Proof. split; [reflexivity|]. intros world. reflexivity. Qed.

(** C5.  [attachToTab t] on a session already attached to [t] returns at
    once on the unchanged state: nothing is mutated, no call is made to the
    debugger and nothing is posted; the same holds for the panel message
    [debugger.attach].  In particular, after an attach to [t] that fulfilled,
    from whatever state and whatever the debugger replied, a second attach to
    [t] is such a no-op. *)
Theorem attach_same_target_is_noop (t : Z) (s : State) :
  attachedTabId s = Some t ->
  attachToTab t s = Return s (Fulfilled tt)
  /\ (forall world, run world (handlePanelMessage (DebuggerAttachMessage t) s) = ([], s, tt))
  /\ (forall world s0,
        resultOf (run world (attachToTab t s0)) = Fulfilled tt ->
        let s1 := stateOf (run world (attachToTab t s0)) in
        attachToTab t s1 = Return s1 (Fulfilled tt)
        /\ run world (handlePanelMessage (DebuggerAttachMessage t) s1) = ([], s1, tt)).
Proof.
  intros Hattached.
  assert (forall world s', attachedTabId s' = Some t ->
            run world (handlePanelMessage (DebuggerAttachMessage t) s') = ([], s', tt))
    as Hmessage.
  { intros world s' Hs'. simpl. rewrite run_void. unfold tryCatch.
    by rewrite attachToTab_attached_noop. }
  split; [by apply attachToTab_attached_noop|]. split.
  - intros world. by apply Hmessage.
  - intros world s0 Hfulfilled s1.
    pose proof (Always_run _ _ _ world (attachToTab_always t s0)) as [_ Hfinal].
    specialize (Hfinal Hfulfilled).
    split; [by apply attachToTab_attached_noop|by apply Hmessage].
Qed.

(** C6.  [detachFromTab t] on a session that is not attached to [t] returns
    at once on the unchanged state: [attachedTabId], the pending requests and
    the record store are as before, no call is made to the debugger and
    nothing is posted; the same holds for the panel message
    [debugger.detach]. *)
Theorem detach_other_target_is_noop (t : Z) (s : State) :
  attachedTabId s <> Some t ->
  detachFromTab t s = Return s (Fulfilled tt)
  /\ (forall world, run world (handlePanelMessage (DebuggerDetachMessage t) s) = ([], s, tt)).
Proof.
  intros Hother. split; [by apply detachFromTab_other_noop|].
  intros world. simpl. rewrite run_void. unfold tryCatch.
  by rewrite detachFromTab_other_noop.
Qed.

(* --------------------------------------------------------------------- *)
(** *** Response headers *)

(** What [applyResponseReceived] keeps and what it replaces. *)
Lemma applyResponseReceived_fields (existing updated : PendingRequest.t) (params : value) :
  applyResponseReceived existing params = Some updated ->
  PendingRequest.requestId updated = PendingRequest.requestId existing
  /\ PendingRequest.url updated = PendingRequest.url existing
  /\ PendingRequest.method updated = PendingRequest.method existing
  /\ PendingRequest.hasPostData updated = PendingRequest.hasPostData existing
  /\ PendingRequest.requestPostData updated = PendingRequest.requestPostData existing
  /\ PendingRequest.timeStamp updated = PendingRequest.timeStamp existing
  /\ asNumber (prop (prop params "response") "status") = Some (PendingRequest.status updated)
  /\ asString (prop (prop params "response") "mimeType") = Some (PendingRequest.mimeType updated)
  /\ PendingRequest.resourceType updated
     = default (PendingRequest.resourceType existing) (asString (prop params "type")).
Proof.
  unfold applyResponseReceived.
  destruct (negb (isRecord params)); [done|].
  destruct (negb (isRecord (prop params "response"))); [done|].
  destruct (asNumber (prop (prop params "response") "status")) as [status|]; [|done].
  destruct (asString (prop (prop params "response") "mimeType")) as [mimeType|]; [|done].
  simpl. destruct (String.eqb mimeType ""); [done|].
  destruct (match truthyString (asString (prop params "type")) with
            | Some r => negb (isAllowedResourceType r)
            | None => false
            end); [done|].
  intros [= <-]. simpl. repeat split; reflexivity.
Qed.

Lemma applyResponseReceived_allowed (existing updated : PendingRequest.t)
      (params : value) (r : string) :
  applyResponseReceived existing params = Some updated ->
  asString (prop params "type") = Some r -> r <> "" ->
  isAllowedResourceType r = true.
Proof.
  unfold applyResponseReceived.
  destruct (negb (isRecord params)); [done|].
  destruct (negb (isRecord (prop params "response"))); [done|].
  destruct (asNumber (prop (prop params "response") "status")) as [status|]; [|done].
  destruct (truthyString (asString (prop (prop params "response") "mimeType")));
    [|done].
  intros Happly Htype Hne. rewrite Htype in Happly. simpl in Happly.
  destruct (String.eqb_spec r ""); [done|].
  by destruct (isAllowedResourceType r).
Qed.



(* --------------------------------------------------------------------- *)
(** *** Terminal events *)

Section TerminalEvents.

Variable world : World.

Lemma last_pushRecord r s : last (recordBuffer (pushRecord r s)) = Some r.
Proof. rewrite pushRecord_buffer. apply last_snoc. Qed.

Lemma requestBodyRead_not_responseBodyRead c :
  isRequestBodyRead c = true -> isResponseBodyRead c = false.
Proof.
  destruct c as [| |tab method params]; try done. simpl.
  by intros ->%String.eqb_eq.
Qed.

(** An execution of [handleLoadingFailed] is an execution of
    [buildRequestBody] followed by the removal of the pending request and
    the push of the record. *)
Lemma handleLoadingFailed_run s t pending requestId :
  attachedTabId s = Some t ->
  pendingRequests s !! requestId = Some pending ->
  exists calls s1 requestBody,
    run world (buildRequestBody (Some t) requestId
                 (PendingRequest.hasPostData pending)
                 (PendingRequest.requestPostData pending) s)
    = (calls, s1, Fulfilled requestBody)
    /\ Forall (fun c => isRequestBodyRead c = true) calls
    /\ run world (handleLoadingFailed requestId s)
       = (calls,
          pushRecord (failedRecord requestId pending requestBody)
                     (deletePending requestId s1),
          Fulfilled tt).
Proof.
  intros Hattached Hpending. unfold handleLoadingFailed.
  rewrite Hattached, Hpending, run_bind.
  pose proof (Always_run _ _ _ world
                (buildRequestBody_always (Some t) requestId
                   (PendingRequest.hasPostData pending)
                   (PendingRequest.requestPostData pending) s)) as [Hcalls Hres].
  destruct (run world (buildRequestBody _ _ _ _ s)) as [[calls s1] o] eqn:Erequest.
  cbn [resultOf callsOf fst snd] in *. destruct Hres as [requestBody ->].
  exists calls, s1, requestBody. split; [done|]. split; [done|].
  simpl. by rewrite app_nil_r.
Qed.

(** An execution of [handleLoadingFinished] is an execution of
    [buildRequestBody], then one of [buildResponseBody] on the tab attached
    by then, then the removal and the push. *)
Lemma handleLoadingFinished_run s t pending requestId encodedDataLength :
  attachedTabId s = Some t ->
  pendingRequests s !! requestId = Some pending ->
  exists calls1 s1 requestBody calls2 s2 body,
    run world (buildRequestBody (Some t) requestId
                 (PendingRequest.hasPostData pending)
                 (PendingRequest.requestPostData pending) s)
    = (calls1, s1, Fulfilled requestBody)
    /\ run world (buildResponseBody (attachedTabId s1) requestId encodedDataLength s1)
       = (calls2, s2, Fulfilled body)
    /\ run world (handleLoadingFinished requestId encodedDataLength s)
       = (calls1 ++ calls2,
          pushRecord (finishedRecord requestId pending encodedDataLength requestBody body)
                     (deletePending requestId s2),
          Fulfilled tt).
Proof.
  intros Hattached Hpending. unfold handleLoadingFinished.
  rewrite Hattached, Hpending, run_bind.
  pose proof (Always_run _ _ _ world
                (buildRequestBody_always (Some t) requestId
                   (PendingRequest.hasPostData pending)
                   (PendingRequest.requestPostData pending) s)) as [_ Hres].
  destruct (run world (buildRequestBody _ _ _ _ s)) as [[calls1 s1] o] eqn:Erequest.
  cbn [resultOf callsOf fst snd] in *. destruct Hres as [requestBody ->].
  rewrite run_bind.
  pose proof (Always_run _ _ _ world
                (buildResponseBody_always (attachedTabId s1) requestId
                   encodedDataLength s1)) as [_ Hres].
  cbv beta.
  destruct (run world (buildResponseBody _ _ _ s1)) as [[calls2 s2] o] eqn:Ebody.
  cbn [resultOf snd] in Hres. destruct Hres as [body ->].
  exists calls1, s1, requestBody, calls2, s2, body.
  split; [done|]. split; [done|].
  simpl. by rewrite app_nil_r.
Qed.

(** Without a pending request both terminal handlers return at once. *)
Lemma terminal_handlers_without_pending s requestId encodedDataLength :
  pendingRequests s !! requestId = None ->
  handleLoadingFinished requestId encodedDataLength s = Return s (Fulfilled tt)
  /\ handleLoadingFailed requestId s = Return s (Fulfilled tt).
Proof.
  intros Hnone. unfold handleLoadingFinished, handleLoadingFailed.
  rewrite Hnone. by destruct (attachedTabId s).
Qed.

End TerminalEvents.

(** Once [detachFromTab] has run on the attached tab, no request is pending
    and the session is unattached, whatever happened in between. *)
Lemma detachFromTab_clears t s :
  attachedTabId s = Some t ->
  Always (fun c => c = DebuggerDetach t)
         (fun final _ => pendingRequests final = ∅ /\ attachedTabId final = None)
         (detachFromTab t s).
Proof.
  intros H%sameTab_attached. unfold detachFromTab. rewrite H. simpl.
  apply Always_Await; [done|]. intros reply s'. apply Always_Return.
  unfold sendStatusUpdate. by rewrite broadcast_unfold.
Qed.

(** C8 (as amended).  A loading-finished or loading-failed event that is
    handled when the Pending Request Table has no entry for its requestId,
    as is the case for every requestId once a detach or a new attach has
    cleared the table, is discarded: the state is unchanged, so no record is
    pushed and no [records.added] is posted, and no body read is issued. *)
Theorem terminal_event_after_clear_is_discarded
        (now : Z) (source : option Z) (s : State) (requestId : string)
        (encodedDataLength : Z) :
  pendingRequests s !! requestId = None ->
  handleLoadingFinished requestId encodedDataLength s = Return s (Fulfilled tt)
  /\ handleLoadingFailed requestId s = Return s (Fulfilled tt)
  /\ (forall world params,
        parseLoadingFinished params = Some (requestId, encodedDataLength) ->
        run world (handleDebuggerEvent now source EVENT_LOADING_FINISHED params s)
        = ([], s, tt))
  /\ (forall world params,
        parseLoadingFailed params = Some requestId ->
        run world (handleDebuggerEvent now source EVENT_LOADING_FAILED params s)
        = ([], s, tt)).
Proof.
  intros Hnone.
  destruct (terminal_handlers_without_pending s requestId encodedDataLength Hnone)
    as [Hfinished Hfailed].
  split; [done|]. split; [done|]. split.
  - intros world params Hparse. unfold handleDebuggerEvent.
    destruct (negb (sameTab source (attachedTabId s))); [done|].
    simpl. rewrite Hparse, run_void, Hfinished. done.
  - intros world params Hparse. unfold handleDebuggerEvent.
    destruct (negb (sameTab source (attachedTabId s))); [done|].
    simpl. rewrite Hparse, run_void, Hfailed. done.
Qed.

(** C8 as stated fails: the response body read of [r1] is in flight when the
    panel detaches from tab 7, which empties the Pending Request Table; when
    the read completes the record of [r1] is pushed and posted all the same. *)
Lemma completion_after_detach_still_pushes :
  let start := Scenario.headers_r1 in
  let read := DebuggerSendCommand (Some 7) "Network.getResponseBody"
                (VObj [("requestId", VStr "r1")]) in
  let resumed := snd (Scenario.detaching read start) in
  let final :=
    run Scenario.detaching
      (handleDebuggerEvent 1002 (Some 7) EVENT_LOADING_FINISHED
         (Scenario.finished "r1" 10) start) in
  callsOf final = [read]
  /\ is_Some (pendingRequests start !! "r1")
  /\ pendingRequests resumed = ∅
  /\ attachedTabId resumed = None
  /\ recordBuffer start = []
  /\ map ResponseRecord.id (recordBuffer (stateOf final)) = ["r1"]
  /\ addedRecords (posted start) = []
  /\ map (fun pr => (fst pr, ResponseRecord.id (snd pr)))
         (addedRecords (posted (stateOf final))) = [(1%nat, "r1")].
Proof. vm_compute. repeat split; eauto. Qed.

(** Every execution of [buildRequestBody], case by case: inline post-data
    is checked against the threshold and used without a call; without inline
    post-data nothing is read unless [hasPostData] is set and a tab is given,
    and then the one command [Network.getRequestPostData] decides. *)
Lemma buildRequestBody_run (world : World) (tabId : option Z) (requestId : string)
      (hasPostData : bool) (requestPostData : option string) (s : State) :
  let tooLarge :=
    RequestBody.mk None true
      (Some (AppError.mk "REQUEST_BODY_TOO_LARGE" "请求体超过阈值，已跳过。" VUndefined)) in
  let readFailed cause :=
    RequestBody.mk None false
      (Some (AppError.mk "REQUEST_BODY_READ_FAILED" "读取请求体失败" cause)) in
  let checked text :=
    if MAX_REQUEST_BODY_BYTES <? getTextByteLength text
    then tooLarge else RequestBody.mk (Some text) false None in
  let read := DebuggerSendCommand tabId "Network.getRequestPostData"
                (VObj [("requestId", VStr requestId)]) in
  run world (buildRequestBody tabId requestId hasPostData requestPostData s)
  = match requestPostData, hasPostData, tabId with
    | Some text, _, _ => ([], s, Fulfilled (checked text))
    | None, true, Some _ =>
        ([read], snd (world read s),
         Fulfilled
           match fst (world read s) with
           | LastError lastError => readFailed lastError
           | Result (VUndefined | VNull) => readFailed typeError
           | Result result =>
               match asString (prop result "postData") with
               | Some text => checked text
               | None => RequestBody.mk None false None
               end
           end)
    | None, _, _ => ([], s, Fulfilled (RequestBody.mk None false None))
    end.
Proof.
  cbv zeta. unfold buildRequestBody, finishRequestBody, requestBodyTooLarge, createError.
  destruct requestPostData as [text|].
  { destruct hasPostData;
      by destruct (MAX_REQUEST_BODY_BYTES <? getTextByteLength text). }
  destruct hasPostData; [|done]. destruct tabId as [t|]; [|done].
  simpl. destruct (world _ s) as [[result|lastError] resumed]; [|done].
  destruct result; try reflexivity; simpl;
    match goal with
    | |- context [asString ?v] => by destruct (asString v)
    end.
Qed.

(** C9.  A loading-failed event for the attached tab whose requestId has a
    pending request still resolves the request body: inline post-data is
    checked against the threshold and used without a call; when the request
    has post-data that is not inline, the one command
    [Network.getRequestPostData] is issued for it and the text read (checked
    against the threshold) or the error [REQUEST_BODY_READ_FAILED] with the
    cause of the failure reaches the record; otherwise the body is empty.
    No other call is made, in particular no response body read.  The event
    then removes the pending request and pushes a record with the fields of
    the pending request, [encodedDataLength = 0], that request body, and a
    response body with no text, [truncated = false] and an error of code
    [REQUEST_FAILED]; the record is the newest of the store and is posted to
    every connected panel. *)
Theorem loading_failed_pushes_request_failed_record
        (world : World) (now t : Z) (s : State) (params : value)
        (requestId : string) (pending : PendingRequest.t) :
  attachedTabId s = Some t ->
  parseLoadingFailed params = Some requestId ->
  pendingRequests s !! requestId = Some pending ->
  exists calls resumed requestBody record,
    run world (buildRequestBody (Some t) requestId
                 (PendingRequest.hasPostData pending)
                 (PendingRequest.requestPostData pending) s)
    = (calls, resumed, Fulfilled requestBody)
    /\ run world (handleDebuggerEvent now (Some t) EVENT_LOADING_FAILED params s)
       = (calls, pushRecord record (deletePending requestId resumed), tt)
    /\ Forall (fun c => isResponseBodyRead c = false) calls
    /\ ResponseRecord.id record = requestId
    /\ ResponseRecord.requestBody record = requestBody
    /\ ResponseBody.text (ResponseRecord.body record) = None
    /\ ResponseBody.truncated (ResponseRecord.body record) = false
    /\ AppError.code <$> ResponseBody.error (ResponseRecord.body record)
       = Some "REQUEST_FAILED"
    /\ last (recordBuffer (pushRecord record (deletePending requestId resumed)))
       = Some record
    /\ pendingRequests (pushRecord record (deletePending requestId resumed)) !! requestId
       = None
    /\ Forall (fun port =>
                 (port, RecordsAddedMessage record)
                 ∈ posted (pushRecord record (deletePending requestId resumed)))
              (panelPorts (pushRecord record (deletePending requestId resumed)))
    /\ (ResponseRecord.url record = PendingRequest.url pending
        /\ ResponseRecord.method record = PendingRequest.method pending
        /\ ResponseRecord.status record = PendingRequest.status pending
        /\ ResponseRecord.mimeType record = PendingRequest.mimeType pending
        /\ ResponseRecord.resourceType record = PendingRequest.resourceType pending
        /\ ResponseRecord.timeStamp record = PendingRequest.timeStamp pending
        /\ ResponseRecord.encodedDataLength record = 0
        /\ ResponseBody.isBase64 (ResponseRecord.body record) = false)
    /\ (let tooLarge :=
          RequestBody.mk None true
            (Some (AppError.mk "REQUEST_BODY_TOO_LARGE" "请求体超过阈值，已跳过。"
                     VUndefined)) in
        let readFailed cause :=
          RequestBody.mk None false
            (Some (AppError.mk "REQUEST_BODY_READ_FAILED" "读取请求体失败" cause)) in
        let checked text :=
          if MAX_REQUEST_BODY_BYTES <? getTextByteLength text
          then tooLarge else RequestBody.mk (Some text) false None in
        let read := DebuggerSendCommand (Some t) "Network.getRequestPostData"
                      (VObj [("requestId", VStr requestId)]) in
        match PendingRequest.requestPostData pending with
        | Some text =>
            (* inline post-data *)
            calls = [] /\ resumed = s /\ requestBody = checked text
        | None =>
            if PendingRequest.hasPostData pending
            then
              (* post-data to be read from the debugger *)
              calls = [read] /\ resumed = snd (world read s)
              /\ requestBody
                 = match fst (world read s) with
                   | LastError lastError => readFailed lastError
                   | Result (VUndefined | VNull) => readFailed typeError
                   | Result result =>
                       match asString (prop result "postData") with
                       | Some text => checked text
                       | None => RequestBody.mk None false None
                       end
                   end
            else
              (* no post-data *)
              calls = [] /\ resumed = s /\ requestBody = RequestBody.mk None false None
        end).
Proof.
  intros Hattached Hparse Hpending.
  destruct (handleLoadingFailed_run world s t pending requestId Hattached Hpending)
    as (calls & resumed & requestBody & Hrequest & Hcalls & Hrun).
  exists calls, resumed, requestBody, (failedRecord requestId pending requestBody).
  split; [done|]. split.
  { unfold handleDebuggerEvent.
    apply sameTab_attached in Hattached. rewrite Hattached. simpl.
    by rewrite Hparse, run_void, Hrun. }
  split.
  { eapply Forall_impl; [exact Hcalls|]. apply requestBodyRead_not_responseBodyRead. }
  do 5 (split; [reflexivity|]).
  split; [apply last_pushRecord|]. split.
  { rewrite pushRecord_pending. simpl. apply lookup_delete_eq. }
  split.
  { rewrite pushRecord_ports, pushRecord_posted. apply Forall_forall.
    intros port Hport. apply elem_of_app. right.
    apply list_elem_of_fmap. by exists port. }
  split; [by repeat split|].
  pose proof (buildRequestBody_run world (Some t) requestId
                (PendingRequest.hasPostData pending)
                (PendingRequest.requestPostData pending) s) as Hcases.
  cbv zeta in Hcases. rewrite Hrequest in Hcases. cbv zeta.
  destruct (PendingRequest.requestPostData pending) as [text|].
  { by injection Hcases as -> -> ->. }
  destruct (PendingRequest.hasPostData pending).
  - by injection Hcases as -> -> ->.
  - by injection Hcases as -> -> ->.
Qed.

(** C10.  The record pushed by the loading-failed path has
    [encodedDataLength = 0]; the record pushed by the loading-finished path
    has the [encodedDataLength] declared by the event. *)
Theorem failed_records_have_zero_length
        (world : World) (t : Z) (s : State) (requestId : string)
        (pending : PendingRequest.t) (encodedDataLength : Z) :
  attachedTabId s = Some t ->
  pendingRequests s !! requestId = Some pending ->
  (exists record,
      last (recordBuffer (stateOf (run world (handleLoadingFailed requestId s))))
      = Some record
      /\ ResponseRecord.id record = requestId
      /\ ResponseRecord.encodedDataLength record = 0)
  /\ (exists record,
         last (recordBuffer
                 (stateOf (run world (handleLoadingFinished requestId encodedDataLength s))))
         = Some record
         /\ ResponseRecord.id record = requestId
         /\ ResponseRecord.encodedDataLength record = encodedDataLength).
Proof.
  intros Hattached Hpending. split.
  - destruct (handleLoadingFailed_run world s t pending requestId Hattached Hpending)
      as (calls & resumed & requestBody & _ & _ & ->).
    exists (failedRecord requestId pending requestBody).
    split; [apply last_pushRecord|done].
  - destruct (handleLoadingFinished_run world s t pending requestId encodedDataLength
                Hattached Hpending)
      as (calls1 & s1 & requestBody & calls2 & s2 & body & _ & _ & ->).
    exists (finishedRecord requestId pending encodedDataLength requestBody body).
    split; [apply last_pushRecord|done].
Qed.

(* --------------------------------------------------------------------- *)
(** *** The panel-side validators on the messages the background builds *)

Section Validators.

Lemma parseAppError_wire e :
  Panel.parseAppError (Wire.ofAppError e)
  = if Accepted.appError e then Some e else None.
Proof.
  destruct e as [code message cause].
  unfold Panel.parseAppError, Accepted.appError, Accepted.nonEmpty. cbn.
  destruct (String.eqb code ""), (String.eqb message ""); reflexivity.
Qed.

Lemma parseText_wire text : Panel.parseText (strOrNull text) = Some text.
Proof. by destruct text. Qed.

Lemma parseOptionalError_wire e :
  Panel.parseOptionalError
    (default VUndefined (lookupField "error" (Wire.optionalError e)))
  = if Accepted.optionalError e then Some e else None.
Proof.
  destruct e as [e|]; [|reflexivity].
  pose proof (parseAppError_wire e) as Hparse.
  cbn -[Panel.parseAppError]. cbn -[Panel.parseAppError] in Hparse.
  rewrite Hparse. by destruct (Accepted.appError e).
Qed.

Lemma parseResponseBody_wire b :
  Panel.parseResponseBody (Wire.ofResponseBody b)
  = if Accepted.optionalError (ResponseBody.error b) then Some b else None.
Proof.
  destruct b as [text isBase64 truncated error].
  pose proof (parseOptionalError_wire error) as Herror.
  unfold Panel.parseResponseBody, Wire.ofResponseBody.
  cbn -[Panel.parseOptionalError Wire.optionalError Panel.parseText strOrNull] in *.
  rewrite parseText_wire, Herror.
  by destruct (Accepted.optionalError error).
Qed.

Lemma parseRequestBody_wire b :
  Panel.parseRequestBody (Wire.ofRequestBody b)
  = if Accepted.optionalError (RequestBody.error b) then Some b else None.
Proof.
  destruct b as [text truncated error].
  pose proof (parseOptionalError_wire error) as Herror.
  unfold Panel.parseRequestBody, Wire.ofRequestBody.
  cbn -[Panel.parseOptionalError Wire.optionalError Panel.parseText strOrNull] in *.
  rewrite parseText_wire, Herror.
  by destruct (Accepted.optionalError error).
Qed.

(** The validator accepts a record built by the background exactly when
    its guards hold, and then returns the record itself. *)
Lemma parseResponseRecord_wire r :
  Panel.parseResponseRecord (Wire.ofResponseRecord r)
  = if Accepted.responseRecord r then Some r else None.
Proof.
  destruct r as [id url method status mimeType resourceType timeStamp
                 encodedDataLength requestBody body].
  pose proof (parseRequestBody_wire requestBody) as Hrequest.
  pose proof (parseResponseBody_wire body) as Hbody.
  unfold Panel.parseResponseRecord, Wire.ofResponseRecord,
    Accepted.responseRecord, Accepted.nonEmpty.
  cbn -[Panel.parseRequestBody Panel.parseResponseBody
        Wire.ofRequestBody Wire.ofResponseBody Accepted.optionalError].
  rewrite Hrequest, Hbody.
  destruct (String.eqb id ""), (String.eqb url ""), (String.eqb method ""),
    (String.eqb mimeType ""), (String.eqb resourceType "");
    cbn -[Accepted.optionalError]; try reflexivity.
  by destruct (Accepted.optionalError (RequestBody.error requestBody)),
    (Accepted.optionalError (ResponseBody.error body)).
Qed.

Lemma parseRecords_wire records :
  Panel.parseRecords (map Wire.ofResponseRecord records)
  = if forallb Accepted.responseRecord records then Some records else None.
Proof.
  induction records as [|r records IH]; [reflexivity|].
  cbn [map Panel.parseRecords forallb].
  rewrite parseResponseRecord_wire, IH.
  by destruct (Accepted.responseRecord r), (forallb Accepted.responseRecord records).
Qed.

Lemma parseAttachedTabId_wire t : Panel.parseAttachedTabId (numOrNull t) = Some t.
Proof. by destruct t. Qed.

(** The same for whole messages. *)
Lemma parseBackgroundMessage_wire m :
  Panel.parseBackgroundMessage (Wire.ofBackgroundMessage m)
  = if Accepted.backgroundMessage m then Some m else None.
Proof.
  destruct m as [t|records t|record|error];
    unfold Panel.parseBackgroundMessage, Wire.ofBackgroundMessage;
    cbn -[Panel.parseAttachedTabId numOrNull Panel.parseRecords
          Panel.parseResponseRecord Wire.ofResponseRecord
          Panel.parseAppError Wire.ofAppError Accepted.responseRecord
          Accepted.appError].
  - by rewrite parseAttachedTabId_wire.
  - rewrite parseAttachedTabId_wire, parseRecords_wire.
    by destruct (forallb Accepted.responseRecord records).
  - rewrite parseResponseRecord_wire. by destruct (Accepted.responseRecord record).
  - rewrite parseAppError_wire. by destruct (Accepted.appError error).
Qed.

End Validators.

(** C1 fails on the code.  After [attach(7)], the announcement of the Fetch
    request [r1] and its loading-failed event, the background has pushed and
    posted a record with the empty [mimeType] of a request without response
    headers; the panel-side validators reject that record, the
    [records.added] message that carries it, and the snapshot of the store. *)
Theorem failed_request_record_is_rejected_by_panel :
  let final :=
    stateOf (run Scenario.quiet
      (handleDebuggerEvent 1001 (Some 7) EVENT_LOADING_FAILED
         (Scenario.failed "r1") Scenario.announced_r1)) in
  let record := Scenario.failed_r1 in
  recordBuffer final = [record]
  /\ last (posted final) = Some (1%nat, RecordsAddedMessage record)
  /\ ResponseRecord.mimeType record = ""
  /\ Panel.parseResponseRecord (Wire.ofResponseRecord record) = None
  /\ Panel.parseBackgroundMessage (Wire.ofBackgroundMessage (RecordsAddedMessage record))
     = None
  /\ Panel.parseBackgroundMessage
       (Wire.ofBackgroundMessage
          (RecordsSnapshotMessage (recordBuffer final) (attachedTabId final)))
     = None.
Proof. vm_compute. repeat split. Qed.

(** A request that fails before its headers arrive always yields a record
    the panel rejects: the announcement leaves [mimeType] empty. *)
Lemma parseRequestWillBeSent_no_headers now params pending :
  parseRequestWillBeSent now params = Some pending ->
  PendingRequest.status pending = 0 /\ PendingRequest.mimeType pending = "".
Proof.
  unfold parseRequestWillBeSent.
  destruct (negb (isRecord params)); [done|].
  destruct (truthyString (asString (prop params "requestId"))); [|done].
  destruct (negb (isRecord (prop params "request"))); [done|].
  destruct (truthyString (asString (prop (prop params "request") "url"))); [|done].
  destruct (truthyString (asString (prop (prop params "request") "method"))); [|done].
  destruct (truthyString (asString (prop params "type"))) as [r|]; [|done].
  destruct (negb (isAllowedResourceType r)); [done|].
  by intros [= <-].
Qed.

Lemma failedRecord_without_headers_rejected requestId pending requestBody :
  PendingRequest.mimeType pending = "" ->
  Panel.parseResponseRecord
    (Wire.ofResponseRecord (failedRecord requestId pending requestBody)) = None.
Proof.
  intros Hmime. rewrite parseResponseRecord_wire.
  unfold Accepted.responseRecord, failedRecord. cbn [ResponseRecord.mimeType].
  rewrite Hmime. cbn [Accepted.nonEmpty String.eqb negb].
  by rewrite !andb_false_r.
Qed.

(* --------------------------------------------------------------------- *)
(** *** The theorems at concrete inputs *)

Lemma record_store_keeps_most_recent_at_203 :
  recordBuffer initialState = []
  /\ length (recordBuffer (pushAll (map Scenario.sample (seq 0 203)) initialState))
     = 200%nat
  /\ recordBuffer (pushAll (map Scenario.sample (seq 0 203)) initialState)
     = map Scenario.sample (seq 3 200).
Proof.
  split; [reflexivity|].
  destruct (record_store_keeps_most_recent initialState
              (map Scenario.sample (seq 0 203)) eq_refl) as (Hlen & Hstore & _).
  split; [exact Hlen|exact Hstore].
Defined.

Lemma oversized_response_is_not_read_at_500000 :
  MAX_BODY_BYTES < 500000
  /\ exists error,
       buildResponseBody (Some 7) "r1" 500000 Scenario.headers_r1
       = Return Scenario.headers_r1
           (Fulfilled (ResponseBody.mk None false true (Some error)))
       /\ AppError.code error = "BODY_TOO_LARGE"
       /\ forall world,
            callsOf (run world (buildResponseBody (Some 7) "r1" 500000 Scenario.headers_r1))
            = [].
Proof.
  split; [reflexivity|].
  apply (oversized_response_is_not_read (Some 7) "r1" 500000 Scenario.headers_r1).
  reflexivity.
Defined.

Lemma attach_same_target_is_noop_at_7 :
  attachedTabId Scenario.attached7 = Some 7
  /\ attachToTab 7 Scenario.attached7 = Return Scenario.attached7 (Fulfilled tt)
  /\ (forall world,
        run world (handlePanelMessage (DebuggerAttachMessage 7) Scenario.attached7)
        = ([], Scenario.attached7, tt))
  /\ (forall world s0,
        resultOf (run world (attachToTab 7 s0)) = Fulfilled tt ->
        let s1 := stateOf (run world (attachToTab 7 s0)) in
        attachToTab 7 s1 = Return s1 (Fulfilled tt)
        /\ run world (handlePanelMessage (DebuggerAttachMessage 7) s1) = ([], s1, tt)).
Proof.
  split; [vm_compute; reflexivity|].
  apply (attach_same_target_is_noop 7 Scenario.attached7).
  vm_compute; reflexivity.
Defined.

Lemma detach_other_target_is_noop_at_8 :
  attachedTabId Scenario.attached7 <> Some 8
  /\ detachFromTab 8 Scenario.attached7 = Return Scenario.attached7 (Fulfilled tt)
  /\ (forall world,
        run world (handlePanelMessage (DebuggerDetachMessage 8) Scenario.attached7)
        = ([], Scenario.attached7, tt)).
Proof.
  assert (attachedTabId Scenario.attached7 <> Some 8) as Hother
    by (vm_compute; discriminate).
  split; [exact Hother|].
  exact (detach_other_target_is_noop 8 Scenario.attached7 Hother).
Defined.


Lemma terminal_event_after_clear_is_discarded_at_r1 :
  let read := DebuggerSendCommand (Some 7) "Network.getResponseBody"
                (VObj [("requestId", VStr "r1")]) in
  let s := snd (Scenario.detaching read Scenario.headers_r1) in
  pendingRequests s !! "r1" = None
  /\ handleLoadingFinished "r1" 10 s = Return s (Fulfilled tt)
  /\ handleLoadingFailed "r1" s = Return s (Fulfilled tt)
  /\ (forall world params,
        parseLoadingFinished params = Some ("r1", 10) ->
        run world (handleDebuggerEvent 1002 (Some 7) EVENT_LOADING_FINISHED params s)
        = ([], s, tt))
  /\ (forall world params,
        parseLoadingFailed params = Some "r1" ->
        run world (handleDebuggerEvent 1002 (Some 7) EVENT_LOADING_FAILED params s)
        = ([], s, tt)).
Proof.
  intros read s.
  assert (pendingRequests s !! "r1" = None) as Hnone by (vm_compute; reflexivity).
  split; [exact Hnone|].
  exact (terminal_event_after_clear_is_discarded 1002 (Some 7) s "r1" 10 Hnone).
Defined.

Lemma loading_failed_pushes_request_failed_record_at_r3 :
  let world := Session.postDataRead in
  let s := Session.posting_r3 in
  let params := Scenario.failed "r3" in
  let pending := Session.request_r3 in
  let read := DebuggerSendCommand (Some 7) "Network.getRequestPostData"
                (VObj [("requestId", VStr "r3")]) in
  (attachedTabId s = Some 7
   /\ parseLoadingFailed params = Some "r3"
   /\ pendingRequests s !! "r3" = Some pending)
  /\ (callsOf (run world (handleDebuggerEvent 1005 (Some 7) EVENT_LOADING_FAILED params s))
      = [read]
      /\ last (recordBuffer
                 (stateOf (run world
                    (handleDebuggerEvent 1005 (Some 7) EVENT_LOADING_FAILED params s))))
         = Some (ResponseRecord.mk "r3" "https://x/login" "POST" 0 "" "XHR" 1004 0
                   (RequestBody.mk (Some "a=1") false None)
                   (ResponseBody.mk None false false
                      (Some (AppError.mk "REQUEST_FAILED" "请求失败，未获取响应体"
                               VUndefined)))))
  /\
    exists calls resumed requestBody record,
      run world (buildRequestBody (Some 7) "r3"
                   (PendingRequest.hasPostData pending)
                   (PendingRequest.requestPostData pending) s)
      = (calls, resumed, Fulfilled requestBody)
      /\ run world (handleDebuggerEvent 1005 (Some 7) EVENT_LOADING_FAILED params s)
         = (calls, pushRecord record (deletePending "r3" resumed), tt)
      /\ Forall (fun c => isResponseBodyRead c = false) calls
      /\ ResponseRecord.id record = "r3"
      /\ ResponseRecord.requestBody record = requestBody
      /\ ResponseBody.text (ResponseRecord.body record) = None
      /\ ResponseBody.truncated (ResponseRecord.body record) = false
      /\ AppError.code <$> ResponseBody.error (ResponseRecord.body record)
         = Some "REQUEST_FAILED"
      /\ last (recordBuffer (pushRecord record (deletePending "r3" resumed)))
         = Some record
      /\ pendingRequests (pushRecord record (deletePending "r3" resumed)) !! "r3"
         = None
      /\ Forall (fun port =>
                   (port, RecordsAddedMessage record)
                   ∈ posted (pushRecord record (deletePending "r3" resumed)))
                (panelPorts (pushRecord record (deletePending "r3" resumed)))
      /\ (ResponseRecord.url record = PendingRequest.url pending
          /\ ResponseRecord.method record = PendingRequest.method pending
          /\ ResponseRecord.status record = PendingRequest.status pending
          /\ ResponseRecord.mimeType record = PendingRequest.mimeType pending
          /\ ResponseRecord.resourceType record = PendingRequest.resourceType pending
          /\ ResponseRecord.timeStamp record = PendingRequest.timeStamp pending
          /\ ResponseRecord.encodedDataLength record = 0
          /\ ResponseBody.isBase64 (ResponseRecord.body record) = false)
      /\ (let tooLarge :=
            RequestBody.mk None true
              (Some (AppError.mk "REQUEST_BODY_TOO_LARGE" "请求体超过阈值，已跳过。"
                       VUndefined)) in
          let readFailed cause :=
            RequestBody.mk None false
              (Some (AppError.mk "REQUEST_BODY_READ_FAILED" "读取请求体失败" cause)) in
          let checked text :=
            if MAX_REQUEST_BODY_BYTES <? getTextByteLength text
            then tooLarge else RequestBody.mk (Some text) false None in
          let read := DebuggerSendCommand (Some 7) "Network.getRequestPostData"
                        (VObj [("requestId", VStr "r3")]) in
          match PendingRequest.requestPostData pending with
          | Some text =>
              (* inline post-data *)
              calls = [] /\ resumed = s /\ requestBody = checked text
          | None =>
              if PendingRequest.hasPostData pending
              then
                (* post-data to be read from the debugger *)
                calls = [read] /\ resumed = snd (world read s)
                /\ requestBody
                   = match fst (world read s) with
                     | LastError lastError => readFailed lastError
                     | Result (VUndefined | VNull) => readFailed typeError
                     | Result result =>
                         match asString (prop result "postData") with
                         | Some text => checked text
                         | None => RequestBody.mk None false None
                         end
                     end
              else
                (* no post-data *)
                calls = [] /\ resumed = s /\ requestBody = RequestBody.mk None false None
          end).
Proof.
  intros world s params pending read.
  assert (attachedTabId s = Some 7) as H1 by (vm_compute; reflexivity).
  assert (parseLoadingFailed params = Some "r3") as H2 by reflexivity.
  assert (pendingRequests s !! "r3" = Some pending) as H3 by (vm_compute; reflexivity).
  split; [done|]. split; [by vm_compute|].
  exact (loading_failed_pushes_request_failed_record
           world 1005 7 s params "r3" pending H1 H2 H3).
Defined.

Lemma failed_records_have_zero_length_at_r1 :
  let s := Scenario.announced_r1 in
  let pending := Scenario.pending_r1 in
  (attachedTabId s = Some 7 /\ pendingRequests s !! "r1" = Some pending)
  /\ (exists record,
         last (recordBuffer (stateOf (run Scenario.serving (handleLoadingFailed "r1" s))))
         = Some record
         /\ ResponseRecord.id record = "r1"
         /\ ResponseRecord.encodedDataLength record = 0)
  /\ (exists record,
         last (recordBuffer
                 (stateOf (run Scenario.serving (handleLoadingFinished "r1" 10 s))))
         = Some record
         /\ ResponseRecord.id record = "r1"
         /\ ResponseRecord.encodedDataLength record = 10).
Proof.
  intros s pending.
  assert (attachedTabId s = Some 7) as H1 by (vm_compute; reflexivity).
  assert (pendingRequests s !! "r1" = Some pending) as H2 by (vm_compute; reflexivity).
  split; [done|].
  exact (failed_records_have_zero_length Scenario.serving 7 s "r1" pending 10 H1 H2).
Defined.

(* ===================================================================== *)
(** ** Further properties: the listeners as an event loop *)
(* ===================================================================== *)

Section GuardLaws.

Context {A B : Type}.
Variable I : State -> Prop.

Lemma Guard_bindSusp (Q : A -> Prop) (P : B -> Prop) (m : Susp A)
      (f : A -> State -> Susp B) :
  Guard I I Q m ->
  (forall a s, I s -> Q a -> Guard I I P (f a s)) ->
  Guard I I P (bindSusp m f).
Proof.
  intros Hm Hf. induction Hm as [s a HI HQ|s c k HI _ IH]; simpl.
  - by apply Hf.
  - apply Guard_Await; [done|]. intros reply s' HI'. by apply IH.
Qed.

Lemma Guard_bindSusp_reads (Q : A -> Prop) (P : B -> Prop) s (m : Susp A)
      (f : A -> State -> Susp B) :
  Reads Q s m -> I s ->
  (forall a s', I s' -> Q a -> Guard I I P (f a s')) ->
  Guard I I P (bindSusp m f).
Proof.
  intros Hm. induction Hm as [s a HQ|s c k _ IH]; intros HI Hf; simpl.
  - by apply Hf.
  - apply Guard_Await; [done|]. intros reply s' HI'. by apply IH.
Qed.

End GuardLaws.

Section Builders.

(** The bodies the two builders return. *)
Lemma finishRequestBody_wellformed resolved :
  Wellformed.requestBody (finishRequestBody resolved) = true.
Proof.
  destruct resolved as [text|]; [|done]. unfold finishRequestBody.
  destruct (Z.ltb_spec MAX_REQUEST_BODY_BYTES (getTextByteLength text)); [done|].
  unfold Wellformed.requestBody. simpl.
  by rewrite (proj2 (Z.leb_le _ _)) by done.
Qed.

Lemma buildRequestBody_reads tabId requestId hasPostData requestPostData s :
  Reads (fun o => exists requestBody,
             o = Fulfilled requestBody /\ Wellformed.requestBody requestBody = true)
        s (buildRequestBody tabId requestId hasPostData requestPostData s).
Proof.
  pose proof finishRequestBody_wellformed as Hfinish.
  unfold buildRequestBody.
  destruct hasPostData, requestPostData as [text|];
    try (destruct (MAX_REQUEST_BODY_BYTES <? getTextByteLength text));
    try (apply Reads_Return; eexists; split; [reflexivity|];
         first [apply Hfinish|reflexivity]).
  destruct tabId as [t|];
    [|apply Reads_Return; eexists; split; [reflexivity|apply Hfinish]].
  apply Reads_Await.
  intros [result|lastError] s';
    [|apply Reads_Return; eexists; split; reflexivity].
  destruct result; cbn -[finishRequestBody]; apply Reads_Return; eexists;
    (split; [reflexivity|]); first [apply Hfinish|reflexivity].
Qed.

Lemma buildResponseBody_reads tabId requestId encodedDataLength s :
  Reads (fun o => exists body,
             o = Fulfilled body /\ Wellformed.responseBody body = true)
        s (buildResponseBody tabId requestId encodedDataLength s).
Proof.
  unfold buildResponseBody.
  destruct (MAX_BODY_BYTES <? encodedDataLength);
    [apply Reads_Return; eexists; split; reflexivity|].
  apply Reads_Await.
  intros [result|lastError] s'; simpl;
    [|apply Reads_Return; eexists; split; reflexivity].
  destruct result; simpl; apply Reads_Return; eexists; (split; [reflexivity|]);
    try reflexivity.
  unfold Wellformed.responseBody. simpl.
  match goal with |- context [asString ?v] => by destruct (asString v) end.
Qed.

End Builders.

Section Listeners.

Variable I : State -> Prop.
Hypothesis stretches : StretchesKeep I.

Lemma detachFromTab_guard t s :
  I s -> Guard I I (fun o => o = Fulfilled tt) (detachFromTab t s).
Proof.
  intros HI. unfold detachFromTab.
  destruct (sameTab (Some t) (attachedTabId s)); simpl.
  - apply Guard_Await; [done|]. intros reply s' HI'.
    apply Guard_Return; [|done]. by apply (stretch_detached I).
  - by apply Guard_Return.
Qed.

Lemma attachToTab_guard t s :
  I s -> Guard I I (fun _ => True) (attachToTab t s).
Proof.
  intros HI. unfold attachToTab.
  destruct (sameTab (Some t) (attachedTabId s)); [by apply Guard_Return|].
  unfold bind at 1.
  eapply Guard_bindSusp.
  { destruct (attachedTabId s) as [attached|].
    - by apply detachFromTab_guard.
    - apply (Guard_Return _ _ (fun o => o = Fulfilled tt)); done. }
  intros o s1 HI1 ->. simpl.
  apply Guard_Await; [by apply (stretch_reset I)|].
  intros [r1|e1] s2 HI2; simpl; [|by apply Guard_Return].
  apply Guard_Await; [done|].
  intros [r2|e2] s3 HI3; simpl; [|by apply Guard_Return].
  apply Guard_Return; [|done].
  by apply (stretch_attached I stretches t s3).
Qed.

Lemma handleLoadingFinished_guard requestId encodedDataLength s :
  I s -> Guard I I (fun _ => True) (handleLoadingFinished requestId encodedDataLength s).
Proof.
  intros HI. unfold handleLoadingFinished.
  destruct (attachedTabId s) as [t|]; [|by apply Guard_Return].
  destruct (pendingRequests s !! requestId) as [pending|] eqn:Hpending;
    [|by apply Guard_Return].
  unfold bind at 1.
  eapply Guard_bindSusp_reads; [apply buildRequestBody_reads|done|].
  intros o s1 HI1 (requestBody & -> & Hrequest).
  unfold bind at 1.
  eapply Guard_bindSusp_reads; [apply buildResponseBody_reads|done|].
  intros o s2 HI2 (body & -> & Hbody). simpl.
  apply Guard_Return; [|done].
  by apply (stretch_push I stretches s s2 requestId pending encodedDataLength requestBody body).
Qed.

Lemma handleLoadingFailed_guard requestId s :
  I s -> Guard I I (fun _ => True) (handleLoadingFailed requestId s).
Proof.
  intros HI. unfold handleLoadingFailed.
  destruct (attachedTabId s) as [t|]; [|by apply Guard_Return].
  destruct (pendingRequests s !! requestId) as [pending|] eqn:Hpending;
    [|by apply Guard_Return].
  unfold bind at 1.
  eapply Guard_bindSusp_reads; [apply buildRequestBody_reads|done|].
  intros o s1 HI1 (requestBody & -> & Hrequest). simpl.
  apply Guard_Return; [|done].
  by apply (stretch_push I stretches s s1 requestId pending 0 requestBody requestFailedBody).
Qed.

Lemma void_guard {A} (m : Promise A) s :
  Guard I I (fun _ => True) (m s) -> Guard I I (fun _ => True) (void m s).
Proof.
  intros Hm. unfold void. eapply Guard_bindSusp; [exact Hm|].
  intros a s' HI' _. by apply Guard_Return.
Qed.

Lemma handleDebuggerEvent_guard now source method params s :
  I s -> Guard I I (fun _ => True) (handleDebuggerEvent now source method params s).
Proof.
  intros HI. unfold handleDebuggerEvent.
  destruct (sameTab source (attachedTabId s)) eqn:Hsame; simpl;
    [|by apply Guard_Return].
  apply sameTab_true in Hsame as (t & -> & Hattached).
  destruct (String.eqb method EVENT_REQUEST_WILL_BE_SENT).
  { destruct (parseRequestWillBeSent now params) as [pending|] eqn:Hparse;
      apply Guard_Return; try done.
    by apply (stretch_announce I stretches now params pending t s). }
  destruct (String.eqb method EVENT_RESPONSE_RECEIVED).
  { destruct (negb (isRecord params)); [by apply Guard_Return|].
    destruct (truthyString (asString (prop params "requestId"))) as [requestId|];
      [|by apply Guard_Return].
    destruct (pendingRequests s !! requestId) as [existing|] eqn:Hexisting;
      [|by apply Guard_Return].
    destruct (applyResponseReceived existing params) as [updated|] eqn:Happly;
      apply Guard_Return; try done.
    by apply (stretch_headers I stretches params requestId existing updated t s). }
  destruct (String.eqb method EVENT_LOADING_FINISHED).
  { destruct (parseLoadingFinished params) as [[requestId encodedDataLength]|];
      [|by apply Guard_Return].
    apply void_guard. by apply handleLoadingFinished_guard. }
  destruct (String.eqb method EVENT_LOADING_FAILED); [|by apply Guard_Return].
  destruct (parseLoadingFailed params) as [requestId|]; [|by apply Guard_Return].
  apply void_guard. by apply handleLoadingFailed_guard.
Qed.

Lemma handlePanelMessage_guard m s :
  I s -> Guard I I (fun _ => True) (handlePanelMessage m s).
Proof.
  intros HI. destruct m as [tabId|tabId| | |]; simpl.
  - apply void_guard. unfold tryCatch.
    eapply Guard_bindSusp; [by apply attachToTab_guard|].
    intros [[]|e] s' HI' _; apply Guard_Return; try done.
    by apply (stretch_error I).
  - apply void_guard. unfold tryCatch.
    eapply Guard_bindSusp; [by apply detachFromTab_guard|].
    intros o s' HI' ->. by apply Guard_Return.
  - apply Guard_Return; [|done]. by apply (stretch_status I).
  - apply Guard_Return; [|done]. by apply (stretch_snapshots I).
  - apply Guard_Return; [|done]. by apply (stretch_clear I).
Qed.

Lemma listeners_keep : ListenersKeep I.
Proof.
  split.
  - apply (stretch_connect I stretches).
  - intros raw s HI. unfold onPortMessage.
    destruct (parsePanelMessage raw) as [m|]; [|by apply Guard_Return].
    by apply handlePanelMessage_guard.
  - apply (stretch_disconnect I stretches).
  - intros. by apply handleDebuggerEvent_guard.
  - intros source s HI. unfold onDetach.
    destruct (negb (sameTab source (attachedTabId s))); [done|].
    by apply (stretch_detached I).
Qed.

End Listeners.

Section LoopInvariant.

Variable I : State -> Prop.
Hypothesis listeners : ListenersKeep I.

Lemma settle_keeps m others :
  Guard I I (fun _ => True) m ->
  Forall (fun ck => forall reply s, I s -> Guard I I (fun _ => True) (snd ck reply s))
         others ->
  machineKeeps I (Loop.settle m others).
Proof.
  intros Hm Hothers. destruct Hm as [s a HI _|s c k HI Hk]; simpl.
  - by split.
  - split; [done|]. apply Forall_app. split; [done|]. by constructor.
Qed.

Lemma step_keeps M input : machineKeeps I M -> machineKeeps I (Loop.step M input).
Proof.
  intros [HI Hflight].
  destruct input as [port name|port raw|port|now source method params|source|index reply];
    simpl.
  - split; [by apply (keep_connect I listeners)|done].
  - destruct (existsb (Nat.eqb port) (panelPorts (Loop.state M))); [|by split].
    apply settle_keeps; [by apply (keep_message I listeners)|done].
  - split; [by apply (keep_disconnect I listeners)|done].
  - apply settle_keeps; [by apply (keep_event I listeners)|done].
  - split; [by apply (keep_detached I listeners)|done].
  - destruct (Loop.inFlight M !! index) as [[c k]|] eqn:Hlookup; [|by split].
    apply settle_keeps.
    + eapply Forall_lookup_1 in Hlookup; [|exact Hflight]. by apply Hlookup.
    + by apply Forall_delete.
Qed.

Lemma runLoop_keeps inputs : I initialState -> machineKeeps I (Loop.runLoop inputs).
Proof.
  intros Hinit. unfold Loop.runLoop.
  assert (machineKeeps I Loop.boot) as Hboot by (split; [done|constructor]).
  revert Hboot. generalize Loop.boot.
  induction inputs as [|input inputs IH]; intros M HM; simpl; [done|].
  apply IH. by apply step_keeps.
Qed.

End LoopInvariant.

(* --------------------------------------------------------------------- *)
(** *** Invariants of the reachable states *)

Lemma snapshots_to_all ports s :
  fold_left (fun s port => sendSnapshot port s) ports s
  = mkState (attachedTabId s) (panelPorts s) (pendingRequests s) (recordBuffer s)
            (posted s
             ++ map (fun port =>
                       (port, RecordsSnapshotMessage (recordBuffer s) (attachedTabId s)))
                    ports).
Proof.
  revert s. induction ports as [|port ports IH]; intros s; simpl.
  - rewrite app_nil_r. by destruct s.
  - rewrite IH. simpl. by rewrite <- app_assoc.
Qed.

Lemma sendSnapshotToAll_unfold s :
  sendSnapshotToAll s
  = mkState (attachedTabId s) (panelPorts s) (pendingRequests s) (recordBuffer s)
            (posted s
             ++ map (fun port =>
                       (port, RecordsSnapshotMessage (recordBuffer s) (attachedTabId s)))
                    (panelPorts s)).
Proof. apply snapshots_to_all. Qed.

(** Write a state built from the operations of the background as an
    explicit record of its five variables. *)
Ltac explicit_state :=
  unfold clearRecords, sendStatusUpdate, sendError, pushRecord, sendSnapshot,
    deletePending, clearPending, onPortDisconnect;
  repeat rewrite broadcast_unfold;
  repeat rewrite sendSnapshotToAll_unfold;
  cbn [attachedTabId panelPorts pendingRequests recordBuffer posted
       setAttachedTabId setPanelPorts setPendingRequests setRecordBuffer postMessage].

Lemma handlePortConnection_unfold port name s :
  handlePortConnection port name s
  = if negb (String.eqb name "panel") then s
    else mkState (attachedTabId s)
           (if existsb (Nat.eqb port) (panelPorts s)
            then panelPorts s else panelPorts s ++ [port])
           (pendingRequests s) (recordBuffer s)
           (posted s ++ [(port, RecordsSnapshotMessage (recordBuffer s) (attachedTabId s))]).
Proof. unfold handlePortConnection. by destruct (negb (String.eqb name "panel")). Qed.

Lemma capacity_stretches : StretchesKeep Invariant.capacity.
Proof.
  unfold Invariant.capacity. split.
  - intros port name s H. rewrite handlePortConnection_unfold.
    by destruct (negb (String.eqb name "panel")).
  - intros port s H. by explicit_state.
  - intros s H. by explicit_state.
  - intros s H. explicit_state. cbn [length]. lia.
  - intros t s H. by explicit_state.
  - intros e s _ H. by explicit_state.
  - intros s H. by explicit_state.
  - intros s H. by explicit_state.
  - intros s H. explicit_state. cbn [length]. lia.
  - intros now params pending t s H _ _. by explicit_state.
  - intros params requestId existing updated t s H _ _ _. by explicit_state.
  - intros s0 s requestId pending len requestBody body _ _ _ _ H.
    by apply pushRecord_within_capacity.
Qed.

Lemma idle_stretches : StretchesKeep Invariant.idle.
Proof.
  unfold Invariant.idle. split.
  - intros port name s H. rewrite handlePortConnection_unfold.
    by destruct (negb (String.eqb name "panel")).
  - intros port s H. by explicit_state.
  - intros s H. by explicit_state.
  - intros s H. by explicit_state.
  - intros t s H. by explicit_state.
  - intros e s _ H. by explicit_state.
  - intros s H. by explicit_state.
  - intros s H. by explicit_state.
  - intros s H. by explicit_state.
  - intros now params pending t s H Hattached _. explicit_state. congruence.
  - intros params requestId existing updated t s H Hattached _ _.
    explicit_state. congruence.
  - intros s0 s requestId pending len requestBody body _ _ _ _ H.
    explicit_state. intros Hnone. rewrite (H Hnone). apply delete_empty.
Qed.

Lemma truthyString_Some x y :
  truthyString x = Some y -> x = Some y /\ Accepted.nonEmpty y = true.
Proof.
  destruct x as [x|]; [|done]. unfold truthyString, Accepted.nonEmpty.
  destruct (String.eqb x "") eqn:E; [done|]. intros [= <-]. by rewrite E.
Qed.

Lemma parseRequestWillBeSent_wellformed now params pending :
  parseRequestWillBeSent now params = Some pending ->
  Wellformed.pending (PendingRequest.requestId pending) pending = true
  /\ isAllowedResourceType (PendingRequest.resourceType pending) = true.
Proof.
  unfold parseRequestWillBeSent.
  destruct (negb (isRecord params)); [done|].
  destruct (truthyString (asString (prop params "requestId"))) as [requestId|] eqn:Hid;
    [|done].
  destruct (negb (isRecord (prop params "request"))); [done|].
  destruct (truthyString (asString (prop (prop params "request") "url")))
    as [url|] eqn:Hurl; [|done].
  destruct (truthyString (asString (prop (prop params "request") "method")))
    as [method|] eqn:Hmethod; [|done].
  destruct (truthyString (asString (prop params "type"))) as [r|] eqn:Htype; [|done].
  destruct (isAllowedResourceType r) eqn:Hallowed; [|done].
  intros [= <-]. unfold Wellformed.pending. simpl.
  apply truthyString_Some in Hid as [_ ->].
  apply truthyString_Some in Hurl as [_ ->].
  apply truthyString_Some in Hmethod as [_ ->].
  by rewrite String.eqb_refl, Hallowed.
Qed.

Lemma applyResponseReceived_wellformed key existing updated params :
  Wellformed.pending key existing = true ->
  applyResponseReceived existing params = Some updated ->
  Wellformed.pending key updated = true.
Proof.
  intros Hwf Happly.
  pose proof (applyResponseReceived_fields _ _ _ Happly)
    as (Hrid & Hurl & Hmethod & _ & _ & _ & _ & _ & Htype).
  unfold Wellformed.pending in *. rewrite Hrid, Hurl, Hmethod.
  apply andb_true_iff in Hwf as [Hrest Hresource].
  rewrite Hrest. simpl. rewrite Htype.
  destruct (asString (prop params "type")) as [r|] eqn:Hr; [|exact Hresource].
  simpl. destruct (String.eqb_spec r "") as [->|Hne]; [done|].
  by rewrite (applyResponseReceived_allowed _ _ _ _ Happly Hr Hne).
Qed.

Lemma finishedRecord_wellformed requestId pending encodedDataLength requestBody body :
  Wellformed.pending requestId pending = true ->
  Accepted.optionalError (RequestBody.error requestBody) = true ->
  Accepted.optionalError (ResponseBody.error body) = true ->
  Wellformed.record
    (finishedRecord requestId pending encodedDataLength requestBody body) = true.
Proof.
  unfold Wellformed.pending, Wellformed.record, finishedRecord. simpl.
  intros Hwf -> ->.
  repeat (apply andb_true_iff in Hwf as [Hwf ?]).
  repeat (apply andb_true_intro; split); done.
Qed.

Lemma Forall_forallb {A} (f : A -> bool) l :
  Forall (fun x => f x = true) l -> forallb f l = true.
Proof. induction 1 as [|x l Hx _ IH]; simpl; [done|]. by rewrite Hx, IH. Qed.

Lemma wellformed_to_all (m : BackgroundToPanelMessage) log (ports : list Port) :
  Forall (fun pm => Wellformed.message (snd pm) = true) log ->
  Wellformed.message m = true ->
  Forall (fun pm => Wellformed.message (snd pm) = true)
         (log ++ map (fun port => (port, m)) ports).
Proof.
  intros Hlog Hm. apply Forall_app. split; [done|].
  apply Forall_forall. intros pm (port & -> & _)%list_elem_of_fmap. done.
Qed.

Lemma built_stretches : StretchesKeep Invariant.built.
Proof.
  unfold Invariant.built, Invariant.pendings, Invariant.records. split.
  - intros port name s (Hpending & Hbuffer & Hposted).
    rewrite handlePortConnection_unfold.
    destruct (negb (String.eqb name "panel")); [done|]. simpl.
    split; [done|]. split; [done|].
    apply Forall_app. split; [done|]. constructor; [|constructor].
    simpl. by apply Forall_forallb.
  - intros port s H. by explicit_state.
  - intros s (Hpending & Hbuffer & Hposted). explicit_state.
    split; [intros key p; by rewrite lookup_empty|]. split; [done|].
    by apply wellformed_to_all.
  - intros s (Hpending & Hbuffer & Hposted). explicit_state.
    split; [intros key p; by rewrite lookup_empty|]. by split.
  - intros t s (Hpending & Hbuffer & Hposted). explicit_state.
    split; [done|]. split; [done|].
    apply wellformed_to_all; [by apply wellformed_to_all|].
    simpl. by apply Forall_forallb.
  - intros e s He (Hpending & Hbuffer & Hposted). explicit_state.
    split; [done|]. split; [done|]. by apply wellformed_to_all.
  - intros s (Hpending & Hbuffer & Hposted). explicit_state.
    split; [done|]. split; [done|]. by apply wellformed_to_all.
  - intros s (Hpending & Hbuffer & Hposted). explicit_state.
    split; [done|]. split; [done|]. apply wellformed_to_all; [done|].
    simpl. by apply Forall_forallb.
  - intros s (Hpending & Hbuffer & Hposted). explicit_state.
    split; [intros key p; by rewrite lookup_empty|]. split; [done|].
    by apply wellformed_to_all.
  - intros now params pending t s (Hpending & Hrecords) _ Hparse. explicit_state.
    split; [|done]. intros key p [[<- <-]|[_ Hold]]%lookup_insert_Some.
    + by apply (parseRequestWillBeSent_wellformed now params).
    + by apply Hpending.
  - intros params requestId existing updated t s (Hpending & Hrecords) _ Hexisting Happly.
    explicit_state. split; [|done].
    intros key p [[<- <-]|[_ Hold]]%lookup_insert_Some.
    + eapply applyResponseReceived_wellformed; [|exact Happly]. by apply Hpending.
    + by apply Hpending.
  - intros s0 s requestId pending len requestBody body (Hpending0 & _) Hlookup
           Hrequest Hbody (Hpending & Hbuffer & Hposted).
    apply andb_true_iff in Hrequest as [Hrequest _].
    apply andb_true_iff in Hbody as [Hbody _].
    assert (Wellformed.record (finishedRecord requestId pending len requestBody body)
            = true) as Hrecord
      by (apply finishedRecord_wellformed; [by apply Hpending0|done|done]).
    explicit_state. split; [|split].
    + intros key p [_ Hold]%lookup_delete_Some. by apply Hpending.
    + apply Forall_app. split; [|by repeat constructor].
      destruct (MAX_RECORDS <=? length (recordBuffer s))%nat; [|done].
      destruct Hbuffer; [constructor|done].
    + by apply wellformed_to_all.
Qed.

Lemma reduce_to_all port (m : BackgroundToPanelMessage) (ports : list Port) v :
  NoDup ports ->
  fold_left (fun v (pm : Port * BackgroundToPanelMessage) =>
               if Nat.eqb (fst pm) port then PanelView.reduce (snd pm) v else v)
            (map (fun q => (q, m)) ports) v
  = if decide (port ∈ ports) then PanelView.reduce m v else v.
Proof.
  intros Hnodup. revert v.
  induction Hnodup as [|q ports Hfresh _ IH]; intros v; cbn [map fold_left fst snd].
  - case_decide as Hin; [|done]. by apply not_elem_of_nil in Hin.
  - rewrite IH. destruct (Nat.eqb_spec q port) as [->|Hne].
    + case_decide; [done|]. case_decide as Hout; [done|].
      exfalso. apply Hout. apply elem_of_cons. by left.
    + case_decide as Hin.
      * case_decide as Hout; [done|].
        exfalso. apply Hout. apply elem_of_cons. by right.
      * case_decide as Hout; [|done].
        apply elem_of_cons in Hout as [?|?]; done.
Qed.

Lemma replayParsed_to_all port (m : BackgroundToPanelMessage) (ports : list Port) log :
  NoDup ports ->
  PanelView.replayParsed port (log ++ map (fun q => (q, m)) ports)
  = if decide (port ∈ ports)
    then PanelView.reduce m (PanelView.replayParsed port log)
    else PanelView.replayParsed port log.
Proof.
  intros Hnodup. unfold PanelView.replayParsed. rewrite fold_left_app.
  by apply reduce_to_all.
Qed.

Lemma existsb_port port (ports : list Port) :
  existsb (Nat.eqb port) ports = true <-> port ∈ ports.
Proof.
  rewrite existsb_exists. split.
  - intros [q [Hq Heq]]. apply Nat.eqb_eq in Heq as ->. by apply list_elem_of_In.
  - intros Hin. exists port. split; [by apply list_elem_of_In|apply Nat.eqb_refl].
Qed.

Lemma connected_stretches : StretchesKeep Invariant.connected.
Proof.
  unfold Invariant.connected, Invariant.ports, Invariant.panels. split.
  - intros port name s [Hnodup Hpanels]. rewrite handlePortConnection_unfold.
    destruct (negb (String.eqb name "panel")); [done|]. simpl.
    assert (forall q,
              q ∈ (if existsb (Nat.eqb port) (panelPorts s)
                   then panelPorts s else panelPorts s ++ [port]) ->
              q = port \/ q ∈ panelPorts s) as Hcases.
    { intros q. destruct (existsb (Nat.eqb port) (panelPorts s)); [by right|].
      intros [?|Hq]%elem_of_app; [by right|left].
      by apply list_elem_of_singleton in Hq. }
    split.
    + destruct (existsb (Nat.eqb port) (panelPorts s)) eqn:Hknown; [done|].
      apply NoDup_app. split; [done|]. split; [|apply NoDup_singleton].
      intros q Hq ->%list_elem_of_singleton.
      apply existsb_port in Hq. congruence.
    + intros q Hq%Hcases.
      change [(port, RecordsSnapshotMessage (recordBuffer s) (attachedTabId s))]
        with (map (fun q => (q, RecordsSnapshotMessage (recordBuffer s) (attachedTabId s)))
                  [port]).
      rewrite replayParsed_to_all by apply NoDup_singleton.
      destruct (decide (q ∈ [port])) as [_|Hother]; [done|].
      destruct Hq as [->|Hq]; [|by apply Hpanels].
      exfalso. apply Hother. by apply list_elem_of_singleton.
  - intros port s [Hnodup Hpanels]. explicit_state. split.
    + by apply NoDup_filter.
    + intros q [_ Hq]%list_elem_of_filter. by apply Hpanels.
  - intros s [Hnodup Hpanels]. explicit_state. split; [done|].
    intros q Hq. rewrite replayParsed_to_all by done.
    rewrite decide_True by done. simpl. split; [done|]. by apply Hpanels.
  - intros s [Hnodup Hpanels]. explicit_state. split; [done|].
    intros q Hq. split; [by apply Hpanels|apply suffix_nil].
  - intros t s [Hnodup Hpanels]. explicit_state. split; [done|].
    intros q Hq. rewrite !replayParsed_to_all by done.
    by rewrite !decide_True by done.
  - intros e s _ [Hnodup Hpanels]. explicit_state. split; [done|].
    intros q Hq. rewrite replayParsed_to_all by done.
    rewrite decide_True by done. simpl. by apply Hpanels.
  - intros s [Hnodup Hpanels]. explicit_state. split; [done|].
    intros q Hq. rewrite replayParsed_to_all by done.
    rewrite decide_True by done. simpl. split; [done|]. by apply Hpanels.
  - intros s [Hnodup Hpanels]. explicit_state. split; [done|].
    intros q Hq. rewrite replayParsed_to_all by done.
    by rewrite decide_True by done.
  - intros s [Hnodup Hpanels]. explicit_state. split; [done|].
    intros q Hq. rewrite replayParsed_to_all by done.
    by rewrite decide_True by done.
  - intros now params pending t s H _ _. by explicit_state.
  - intros params requestId existing updated t s H _ _ _. by explicit_state.
  - intros s0 s requestId pending len requestBody body _ _ _ _ [Hnodup Hpanels].
    explicit_state. split; [done|].
    intros q Hq. rewrite replayParsed_to_all by done.
    rewrite decide_True by done.
    cbn [PanelView.reduce PanelView.attachedTabId PanelView.records].
    destruct (Hpanels q Hq) as [Htab Hsuffix]. split; [done|].
    apply suffix_app. etrans; [|exact Hsuffix].
    destruct (MAX_RECORDS <=? length (recordBuffer s))%nat; [|done].
    destruct (recordBuffer s); [done|]. cbn [tail]. by apply suffix_cons_r.
Qed.


Lemma reachable_keeps (I : State -> Prop) inputs :
  StretchesKeep I -> I initialState -> I (Loop.state (Loop.runLoop inputs)).
Proof.
  intros Hstretches Hinit.
  by apply (runLoop_keeps I (listeners_keep I Hstretches) inputs Hinit).
Qed.

Lemma replay_accepted port log :
  Forall (fun pm => fst pm = port -> Accepted.backgroundMessage (snd pm) = true) log ->
  PanelView.replay port log = PanelView.replayParsed port log.
Proof.
  unfold PanelView.replay, PanelView.replayParsed.
  generalize PanelView.initial as v.
  induction log as [|[q m] log IH]; intros v Hall; [done|].
  apply Forall_cons in Hall as [Hm Hall]. cbn [fold_left fst snd].
  destruct (Nat.eqb_spec q port) as [->|Hne]; [|by apply IH].
  unfold PanelView.onMessage. rewrite parseBackgroundMessage_wire.
  cbn [fst snd] in Hm. rewrite Hm by done. by apply IH.
Qed.

Lemma accepted_split_record r :
  Wellformed.record r = true ->
  Accepted.responseRecord r = Wellformed.recordHasHeaders r.
Proof.
  unfold Wellformed.record, Accepted.responseRecord, Wellformed.recordHasHeaders.
  intros H. repeat (apply andb_true_iff in H as [H ?]).
  repeat match goal with E : _ = true |- _ => rewrite E; clear E end.
  simpl. by rewrite !andb_true_r.
Qed.

Lemma accepted_split_message m :
  Wellformed.message m = true ->
  Accepted.backgroundMessage m = Wellformed.messageHasHeaders m.
Proof.
  destruct m as [t|records t|r|e]; simpl; try done.
  - induction records as [|r records IH]; simpl; [done|].
    intros [Hr Hrest]%andb_true_iff. by rewrite accepted_split_record, IH.
  - apply accepted_split_record.
Qed.

Lemma built_initial : Invariant.built initialState.
Proof.
  split; [|split; constructor].
  intros key p. unfold initialState. cbn [pendingRequests]. by rewrite lookup_empty.
Qed.

(** X1.  However the listeners are driven (ports connecting and leaving,
    panel messages, DevTools events, revocations, callbacks firing in any
    order or never), the record store never holds more than [MAX_RECORDS]
    records. *)
Theorem reachable_store_within_capacity (inputs : list Loop.Input) :
  (length (recordBuffer (Loop.state (Loop.runLoop inputs))) <= MAX_RECORDS)%nat.
Proof.
  apply (reachable_keeps Invariant.capacity inputs capacity_stretches).
  unfold Invariant.capacity, initialState, MAX_RECORDS. simpl. lia.
Qed.

(** X2.  In every reachable state, when no tab is attached the Pending
    Request Table is empty. *)
Theorem reachable_unattached_has_no_pending (inputs : list Loop.Input) :
  attachedTabId (Loop.state (Loop.runLoop inputs)) = None ->
  pendingRequests (Loop.state (Loop.runLoop inputs)) = ∅.
Proof.
  apply (reachable_keeps Invariant.idle inputs idle_stretches). done.
Qed.

(** X3.  In every reachable state, each pending request is stored under its
    own requestId, and its requestId, url and method are non-empty; its
    resourceType is [Fetch], [XHR] or the empty string. *)
Theorem reachable_pending_requests_wellformed
        (inputs : list Loop.Input) (key : string) (p : PendingRequest.t) :
  pendingRequests (Loop.state (Loop.runLoop inputs)) !! key = Some p ->
  PendingRequest.requestId p = key
  /\ key <> ""
  /\ PendingRequest.url p <> ""
  /\ PendingRequest.method p <> ""
  /\ (PendingRequest.resourceType p = "Fetch"
      \/ PendingRequest.resourceType p = "XHR"
      \/ PendingRequest.resourceType p = "").
Proof.
  intros Hlookup.
  assert (Invariant.built (Loop.state (Loop.runLoop inputs))) as [Hpendings _].
  { apply (reachable_keeps Invariant.built inputs built_stretches), built_initial. }
  specialize (Hpendings key p Hlookup). unfold Wellformed.pending in Hpendings.
  repeat (apply andb_true_iff in Hpendings as [Hpendings ?]).
  unfold Accepted.nonEmpty in *.
  repeat match goal with
         | E : negb (String.eqb ?x "") = true |- _ =>
             apply negb_true_iff, String.eqb_neq in E
         end.
  apply String.eqb_eq in Hpendings.
  repeat (split; [done|]).
  match goal with E : (_ || _) = true |- _ => apply orb_true_iff in E as [E|E] end.
  - unfold isAllowedResourceType in *. simpl in *.
    repeat match goal with
           | E : (_ || _) = true |- _ => apply orb_true_iff in E as [E|E]
           end; try done.
    + left. by apply String.eqb_eq.
    + right. left. by apply String.eqb_eq.
  - right. right. by apply String.eqb_eq.
Qed.

(** X4.  Every message the background ever posts is reconstructed
    unchanged by the panel's [parseBackgroundMessage] when all the records
    it carries have a non-empty [mimeType] and [resourceType], and is
    dropped otherwise: ids, urls, methods and error codes never fail the
    validators. *)
Theorem reachable_messages_parse_iff_headers
        (inputs : list Loop.Input) (port : Port) (m : BackgroundToPanelMessage) :
  (port, m) ∈ posted (Loop.state (Loop.runLoop inputs)) ->
  Panel.parseBackgroundMessage (Wire.ofBackgroundMessage m)
  = if Wellformed.messageHasHeaders m then Some m else None.
Proof.
  intros Hposted.
  assert (Invariant.built (Loop.state (Loop.runLoop inputs))) as (_ & _ & Hall).
  { apply (reachable_keeps Invariant.built inputs built_stretches), built_initial. }
  rewrite Forall_forall in Hall. specialize (Hall _ Hposted). simpl in Hall.
  by rewrite parseBackgroundMessage_wire, accepted_split_message.
Qed.

(** X5.  In every reachable state no port is registered twice, and a
    connected panel that accepted every message posted to it shows the
    attached tab of the background and holds, at the end of its list and in
    the same order, every record of the record store. *)
Theorem reachable_panel_in_sync (inputs : list Loop.Input) (port : Port) :
  let s := Loop.state (Loop.runLoop inputs) in
  port ∈ panelPorts s ->
  Forall (fun pm => fst pm = port -> Accepted.backgroundMessage (snd pm) = true)
         (posted s) ->
  NoDup (panelPorts s)
  /\ PanelView.attachedTabId (PanelView.replay port (posted s)) = attachedTabId s
  /\ recordBuffer s `suffix_of` PanelView.records (PanelView.replay port (posted s)).
Proof.
  intros s Hport Haccepted.
  assert (Invariant.connected s) as [Hnodup Hpanels].
  { apply (reachable_keeps Invariant.connected inputs connected_stretches).
    split; [constructor|]. intros q Hq. by apply not_elem_of_nil in Hq. }
  split; [done|]. rewrite replay_accepted by done. by apply Hpanels.
Qed.

(* ===================================================================== *)
(** ** Further properties: parsers *)
(* ===================================================================== *)

(** X6.  Every command of [PanelToBackgroundMessage], written as the object
    literal the panel posts, is parsed back to itself by [parsePanelMessage],
    so the port listener runs [handlePanelMessage] on exactly that command. *)
Theorem panel_commands_round_trip (m : PanelToBackgroundMessage) (s : State) :
  parsePanelMessage (PanelWire.ofPanelMessage m) = Some m
  /\ onPortMessage (PanelWire.ofPanelMessage m) s = handlePanelMessage m s.
Proof.
  assert (parsePanelMessage (PanelWire.ofPanelMessage m) = Some m) as Hparse
    by (destruct m; reflexivity).
  split; [done|]. unfold onPortMessage. by rewrite Hparse.
Qed.

(** X7.  A raw message that [parsePanelMessage] accepts is an object whose
    [type] is the name of the command returned, and for attach and detach
    its [tabId] is the finite number returned. *)
Theorem parsed_command_matches_payload (v : value) (m : PanelToBackgroundMessage) :
  parsePanelMessage v = Some m ->
  isRecord v = true
  /\ prop v "type" = prop (PanelWire.ofPanelMessage m) "type"
  /\ match m with
     | DebuggerAttachMessage tabId | DebuggerDetachMessage tabId =>
         prop v "tabId" = num tabId
     | _ => True
     end.
Proof.
  unfold parsePanelMessage.
  destruct (isRecord v); [|done]. simpl.
  destruct (prop v "type") as [| | | |messageType| |]; try done. simpl.
  destruct (String.eqb messageType ""); [done|].
  destruct (String.eqb_spec messageType "debugger.attach") as [->|_].
  { destruct (prop v "tabId") as [| | |[z| |]| | |]; try done. by intros [= <-]. }
  destruct (String.eqb_spec messageType "debugger.detach") as [->|_].
  { destruct (prop v "tabId") as [| | |[z| |]| | |]; try done. by intros [= <-]. }
  destruct (String.eqb_spec messageType "debugger.status") as [->|_];
    [by intros [= <-]|].
  destruct (String.eqb_spec messageType "records.get") as [->|_];
    [by intros [= <-]|].
  destruct (String.eqb_spec messageType "records.clear") as [->|_];
    [by intros [= <-]|done].
Qed.

(** X8.  A request announcement that [parseRequestWillBeSent] accepts
    yields a pending request with the event's non-empty requestId, url and
    method, an allow-listed resourceType, status 0, an empty mimeType, the
    current time, the inline post-data when it is a string, and the event's
    [hasPostData] flag when it is a boolean, otherwise whether inline
    post-data is present. *)
Theorem announced_request_fields (now : Z) (params : value) (p : PendingRequest.t) :
  parseRequestWillBeSent now params = Some p ->
  let request := prop params "request" in
  asString (prop params "requestId") = Some (PendingRequest.requestId p)
  /\ asString (prop request "url") = Some (PendingRequest.url p)
  /\ asString (prop request "method") = Some (PendingRequest.method p)
  /\ asString (prop params "type") = Some (PendingRequest.resourceType p)
  /\ PendingRequest.requestId p <> ""
  /\ PendingRequest.url p <> ""
  /\ PendingRequest.method p <> ""
  /\ (PendingRequest.resourceType p = "Fetch" \/ PendingRequest.resourceType p = "XHR")
  /\ PendingRequest.status p = 0
  /\ PendingRequest.mimeType p = ""
  /\ PendingRequest.timeStamp p = now
  /\ PendingRequest.requestPostData p = asString (prop request "postData")
  /\ PendingRequest.hasPostData p
     = match asBoolean (prop request "hasPostData") with
       | Some flag => flag
       | None => bool_decide (PendingRequest.requestPostData p <> None)
       end.
Proof.
  unfold parseRequestWillBeSent.
  destruct (negb (isRecord params)); [done|].
  destruct (truthyString (asString (prop params "requestId"))) as [requestId|] eqn:Hid;
    [|done].
  destruct (negb (isRecord (prop params "request"))); [done|].
  destruct (truthyString (asString (prop (prop params "request") "url")))
    as [url|] eqn:Hurl; [|done].
  destruct (truthyString (asString (prop (prop params "request") "method")))
    as [method|] eqn:Hmethod; [|done].
  destruct (truthyString (asString (prop params "type"))) as [r|] eqn:Htype; [|done].
  destruct (isAllowedResourceType r) eqn:Hallowed; [|done].
  intros [= <-]. cbn zeta. simpl.
  apply truthyString_Some in Hid as [-> Hid].
  apply truthyString_Some in Hurl as [-> Hurl].
  apply truthyString_Some in Hmethod as [-> Hmethod].
  apply truthyString_Some in Htype as [-> _].
  unfold Accepted.nonEmpty in *.
  apply negb_true_iff, String.eqb_neq in Hid, Hurl, Hmethod.
  repeat (split; [done|]). split; [|done].
  unfold isAllowedResourceType in Hallowed. simpl in Hallowed.
  apply orb_true_iff in Hallowed as [H|H]; [left; by apply String.eqb_eq|].
  apply orb_true_iff in H as [H|H]; [right; by apply String.eqb_eq|done].
Qed.

(** X9.  An accepted announcement for the attached tab stores its pending
    request under the announced requestId, replacing any earlier entry of
    that id (so status and mimeType are reset), and touches no other entry
    and no other variable; nothing is posted and no call is made. *)
Theorem announcement_inserts_or_replaces
        (now t : Z) (params : value) (p : PendingRequest.t) (s : State) :
  attachedTabId s = Some t ->
  parseRequestWillBeSent now params = Some p ->
  exists s',
    handleDebuggerEvent now (Some t) EVENT_REQUEST_WILL_BE_SENT params s = Return s' tt
    /\ pendingRequests s' !! PendingRequest.requestId p = Some p
    /\ (forall other, other <> PendingRequest.requestId p ->
                      pendingRequests s' !! other = pendingRequests s !! other)
    /\ attachedTabId s' = attachedTabId s
    /\ panelPorts s' = panelPorts s
    /\ recordBuffer s' = recordBuffer s
    /\ posted s' = posted s.
Proof.
  intros Hattached%sameTab_attached Hparse.
  eexists. split.
  { unfold handleDebuggerEvent. rewrite Hattached. simpl. rewrite Hparse. reflexivity. }
  simpl. split; [apply lookup_insert_eq|]. split; [|done].
  intros other Hother. by apply lookup_insert_ne.
Qed.

(** X10.  While no tab is attached, nothing Chrome's debugger delivers
    (events of any tab, revocations) changes the machine: the state is
    unchanged and no call is started. *)
Theorem unattached_ignores_debugger (M : Loop.Machine) (inputs : list Loop.Input) :
  attachedTabId (Loop.state M) = None ->
  Forall (fun input => match input with
                       | Loop.DebuggerEvent _ _ _ _ | Loop.DebuggerDetached _ => True
                       | _ => False
                       end) inputs ->
  fold_left Loop.step inputs M = M.
Proof.
  intros Hnone Hall.
  induction Hall as [|input inputs Hinput _ IH]; [done|].
  cbn [fold_left].
  assert (Loop.step M input = M) as ->; [|exact IH].
  destruct M as [s flight]. simpl in Hnone.
  destruct input as [| | |now source method params|source|]; try done; simpl.
  - unfold handleDebuggerEvent. rewrite Hnone.
    by destruct source.
  - unfold onDetach. rewrite Hnone. by destruct source.
Qed.

(* ===================================================================== *)
(** ** Further properties: the session controller *)
(* ===================================================================== *)

Lemma sameTab_other t s :
  attachedTabId s <> Some t -> sameTab (Some t) (attachedTabId s) = false.
Proof.
  intros Hother. destruct (sameTab (Some t) (attachedTabId s)) eqn:E; [|done].
  by apply sameTab_attached in E.
Qed.

(** X11.  [detachFromTab t] on the session attached to [t] makes exactly one
    call, [chrome.debugger.detach] for [t], and whatever its callback finds
    (a [lastError] included) it fulfils, leaving no tab attached and no
    request pending, keeping the record store, and posting one
    [status.update] with [null] to every panel.  When nothing else ran in
    between, that is the state the [onDetach] listener produces for a
    revocation of [t]. *)
Theorem detach_effect (world : World) (t : Z) (s : State) :
  attachedTabId s = Some t ->
  let resumed := snd (world (DebuggerDetach t) s) in
  run world (detachFromTab t s)
  = ([DebuggerDetach t],
     mkState None (panelPorts resumed) ∅ (recordBuffer resumed)
       (posted resumed
        ++ map (fun port => (port, DebuggerStatusUpdateMessage None)) (panelPorts resumed)),
     Fulfilled tt)
  /\ (forall reply,
        run (answering (fun _ => reply)) (detachFromTab t s)
        = ([DebuggerDetach t], onDetach (Some t) s, Fulfilled tt)).
Proof.
  intros Hattached%sameTab_attached. unfold detachFromTab, onDetach.
  rewrite Hattached. split.
  - simpl. destruct (world (DebuggerDetach t) s) as [reply resumed]. simpl.
    by explicit_state.
  - intros reply. reflexivity.
Qed.

(** X12.  An attach to a tab [t] other than the attached one, when the
    handshake and [Network.enable] succeed and nothing else runs in between:
    the previous tab, if any, is detached first (one [detach] call and a
    [status.update] with [null]); then the calls are [attach t "1.3"] and
    [Network.enable]; at the end [t] is attached, the record store and the
    Pending Request Table are empty, and every panel has been posted a
    [status.update] with [t] followed by an empty snapshot. *)
Theorem attach_switches_session (oracle : Call -> Reply) (t : Z) (s : State) r1 r2 :
  attachedTabId s <> Some t ->
  oracle (DebuggerAttach t "1.3") = Result r1 ->
  oracle (DebuggerSendCommand (Some t) "Network.enable" VUndefined) = Result r2 ->
  let previous := match attachedTabId s with
                  | Some a => [a]
                  | None => []
                  end in
  run (answering oracle) (attachToTab t s)
  = (map DebuggerDetach previous
     ++ [DebuggerAttach t "1.3";
         DebuggerSendCommand (Some t) "Network.enable" VUndefined],
     mkState (Some t) (panelPorts s) ∅ []
       (posted s
        ++ flat_map (fun _ => map (fun port => (port, DebuggerStatusUpdateMessage None))
                                  (panelPorts s)) previous
        ++ map (fun port => (port, DebuggerStatusUpdateMessage (Some t))) (panelPorts s)
        ++ map (fun port => (port, RecordsSnapshotMessage [] (Some t))) (panelPorts s)),
     Fulfilled tt).
Proof.
  intros Hother%sameTab_other Hattach Henable. unfold attachToTab.
  rewrite Hother. unfold bind at 1. cbv beta.
  destruct (attachedTabId s) as [a|] eqn:Hattached.
  - unfold detachFromTab. rewrite Hattached. simpl. rewrite Z.eqb_refl. simpl.
    rewrite Hattach. simpl. rewrite Henable. simpl.
    explicit_state. by rewrite app_nil_r, <- !app_assoc.
  - simpl. rewrite Hattach. simpl. rewrite Henable. simpl.
    explicit_state. by rewrite <- !app_assoc.
Qed.

(** X13.  An attach to a tab [t] other than the attached one, when the
    handshake fails with [lastError] and nothing else runs in between: the
    panel command [debugger.attach] still detaches the previous tab and
    empties the record store and the Pending Request Table; [Network.enable]
    is not sent, no tab is attached at the end, and every panel is posted an
    error with code [ATTACH_FAILED] whose cause is that [lastError]. *)
Theorem attach_handshake_failure (oracle : Call -> Reply) (t : Z) (s : State) lastError :
  attachedTabId s <> Some t ->
  oracle (DebuggerAttach t "1.3") = LastError lastError ->
  let previous := match attachedTabId s with
                  | Some a => [a]
                  | None => []
                  end in
  exists error,
    AppError.code error = "ATTACH_FAILED" /\ AppError.cause error = lastError
    /\ run (answering oracle) (handlePanelMessage (DebuggerAttachMessage t) s)
       = (map DebuggerDetach previous ++ [DebuggerAttach t "1.3"],
          mkState None (panelPorts s) ∅ []
            (posted s
             ++ flat_map (fun _ => map (fun port => (port, DebuggerStatusUpdateMessage None))
                                       (panelPorts s)) previous
             ++ map (fun port => (port, ErrorMessage error)) (panelPorts s)),
          tt).
Proof.
  intros Hother%sameTab_other Hattach.
  exists (createError "ATTACH_FAILED" "附加调试器失败" lastError).
  split; [|split]; [reflexivity..|].
  simpl. unfold void, tryCatch, attachToTab.
  rewrite Hother. unfold bind at 1. cbv beta.
  destruct (attachedTabId s) as [a|] eqn:Hattached.
  - unfold detachFromTab. rewrite Hattached. simpl. rewrite Z.eqb_refl. simpl.
    rewrite Hattach. simpl.
    explicit_state. by rewrite app_nil_r, <- !app_assoc.
  - simpl. rewrite Hattach. simpl.
    explicit_state. by rewrite Hattached.
Qed.

(** X14.  An attach to a tab [t] other than the attached one, when the
    handshake succeeds but [Network.enable] fails and nothing else runs in
    between: the attach is abandoned in the same way: [ATTACH_FAILED] with
    the [lastError] of the command is posted to every panel and no tab is
    recorded as attached at the end, and no [chrome.debugger.detach] is
    issued for [t] although its handshake succeeded. *)
Theorem attach_enable_failure (oracle : Call -> Reply) (t : Z) (s : State) r1 lastError :
  attachedTabId s <> Some t ->
  oracle (DebuggerAttach t "1.3") = Result r1 ->
  oracle (DebuggerSendCommand (Some t) "Network.enable" VUndefined) = LastError lastError ->
  let previous := match attachedTabId s with
                  | Some a => [a]
                  | None => []
                  end in
  exists error,
    AppError.code error = "ATTACH_FAILED" /\ AppError.cause error = lastError
    /\ run (answering oracle) (handlePanelMessage (DebuggerAttachMessage t) s)
       = (map DebuggerDetach previous
          ++ [DebuggerAttach t "1.3";
              DebuggerSendCommand (Some t) "Network.enable" VUndefined],
          mkState None (panelPorts s) ∅ []
            (posted s
             ++ flat_map (fun _ => map (fun port => (port, DebuggerStatusUpdateMessage None))
                                       (panelPorts s)) previous
             ++ map (fun port => (port, ErrorMessage error)) (panelPorts s)),
          tt)
    /\ DebuggerDetach t ∉ map DebuggerDetach previous.
Proof.
  intros Hother Hattach Henable.
  exists (createError "ATTACH_FAILED" "附加调试器失败" lastError).
  split; [|split]; [reflexivity..|].
  split.
  - apply sameTab_other in Hother.
    simpl. unfold void, tryCatch, attachToTab.
    rewrite Hother. unfold bind at 1. cbv beta.
    destruct (attachedTabId s) as [a|] eqn:Hattached.
    + unfold detachFromTab. rewrite Hattached. simpl. rewrite Z.eqb_refl. simpl.
      rewrite Hattach. simpl. rewrite Henable. simpl.
      explicit_state. by rewrite app_nil_r, <- !app_assoc.
    + simpl. rewrite Hattach. simpl. rewrite Henable. simpl.
      explicit_state. by rewrite Hattached.
  - destruct (attachedTabId s) as [a|]; simpl.
    + intros [= ->]%list_elem_of_singleton. done.
    + apply not_elem_of_nil.
Qed.

(** X15.  [records.get] posts to every panel a snapshot of the record store
    and changes nothing else; [records.clear] empties the record store and
    the Pending Request Table, keeps the attached tab, and posts to every
    panel an empty snapshot.  Neither makes a call. *)
Theorem snapshot_commands (s : State) :
  handlePanelMessage RecordsGetMessage s
  = Return (mkState (attachedTabId s) (panelPorts s) (pendingRequests s) (recordBuffer s)
              (posted s
               ++ map (fun port =>
                         (port, RecordsSnapshotMessage (recordBuffer s) (attachedTabId s)))
                      (panelPorts s))) tt
  /\ handlePanelMessage RecordsClearMessage s
     = Return (mkState (attachedTabId s) (panelPorts s) ∅ []
                 (posted s
                  ++ map (fun port => (port, RecordsSnapshotMessage [] (attachedTabId s)))
                         (panelPorts s))) tt.
Proof. split; simpl; by explicit_state. Qed.

(** X16.  A port whose name is not [panel] is ignored.  A [panel] port is
    registered (once: no duplicate appears) and is posted a snapshot of the
    record store with the attached tab.  Once it has disconnected it is no
    longer registered, and a push posts [records.added] to the remaining
    ports only. *)
Theorem port_lifecycle (port : Port) (name : string) (r : ResponseRecord.t) (s : State) :
  (name <> "panel" -> handlePortConnection port name s = s)
  /\ (let s' := handlePortConnection port "panel" s in
      port ∈ panelPorts s'
      /\ (NoDup (panelPorts s) -> NoDup (panelPorts s'))
      /\ (forall q, q ∈ panelPorts s -> q ∈ panelPorts s')
      /\ posted s' = posted s
                     ++ [(port, RecordsSnapshotMessage (recordBuffer s) (attachedTabId s))]
      /\ attachedTabId s' = attachedTabId s
      /\ pendingRequests s' = pendingRequests s
      /\ recordBuffer s' = recordBuffer s)
  /\ (let s' := onPortDisconnect port s in
      (port ∉ panelPorts s')
      /\ (forall q, q <> port -> q ∈ panelPorts s -> q ∈ panelPorts s')
      /\ posted (pushRecord r s')
         = posted s ++ map (fun q => (q, RecordsAddedMessage r))
                           (filter (fun q => q <> port) (panelPorts s))).
Proof.
  split; [|split].
  - intros Hname. rewrite handlePortConnection_unfold.
    by destruct (String.eqb_spec name "panel").
  - rewrite handlePortConnection_unfold. simpl.
    destruct (existsb (Nat.eqb port) (panelPorts s)) eqn:Hknown.
    + split; [by apply existsb_port|]. by repeat split.
    + split; [apply elem_of_app; right; by apply list_elem_of_singleton|].
      split; [|repeat split; try done; intros q Hq; apply elem_of_app; by left].
      intros Hnodup. apply NoDup_app. split; [done|]. split; [|apply NoDup_singleton].
      intros q Hq Heq%list_elem_of_singleton. subst q.
      apply existsb_port in Hq. congruence.
  - explicit_state. split; [|split; [|done]].
    + intros [Hne _]%list_elem_of_filter. done.
    + intros q Hne Hq. by apply list_elem_of_filter.
Qed.

(* ===================================================================== *)
(** ** Further properties: the body fetcher and the terminal events *)
(* ===================================================================== *)

(** X17.  Whatever the debugger replies, [buildRequestBody] fulfils, after
    at most the one command [Network.getRequestPostData] for the request.
    A returned text never exceeds [MAX_REQUEST_BODY_BYTES] and comes with no
    error and [truncated = false]; [truncated = true] means the error
    [REQUEST_BODY_TOO_LARGE] and no text; any error comes without text.
    Inline post-data is used as it is, without a command.  In every world
    the calls made are none at all (inline post-data, no post-data, or no
    tab) or exactly the one read (post-data not inline, on a tab), and the
    body is then the text read, checked against the threshold, the error
    [REQUEST_BODY_READ_FAILED] carrying the cause, or empty when the reply
    holds no string [postData]. *)
Theorem request_body_outcomes
        (tabId : option Z) (requestId : string) (hasPostData : bool)
        (requestPostData : option string) (s : State) :
  Always (fun c => c = DebuggerSendCommand tabId "Network.getRequestPostData"
                         (VObj [("requestId", VStr requestId)]))
         (fun _ o =>
            exists requestBody,
              o = Fulfilled requestBody
              /\ (forall text,
                     RequestBody.text requestBody = Some text ->
                     getTextByteLength text <= MAX_REQUEST_BODY_BYTES
                     /\ RequestBody.truncated requestBody = false
                     /\ RequestBody.error requestBody = None)
              /\ (RequestBody.truncated requestBody = true ->
                  RequestBody.text requestBody = None
                  /\ AppError.code <$> RequestBody.error requestBody
                     = Some "REQUEST_BODY_TOO_LARGE")
              /\ (forall e,
                     RequestBody.error requestBody = Some e ->
                     RequestBody.text requestBody = None
                     /\ (AppError.code e = "REQUEST_BODY_TOO_LARGE"
                         \/ AppError.code e = "REQUEST_BODY_READ_FAILED")))
         (buildRequestBody tabId requestId hasPostData requestPostData s)
  /\ (forall text,
        buildRequestBody tabId requestId hasPostData (Some text) s
        = Return s (Fulfilled
                      (if MAX_REQUEST_BODY_BYTES <? getTextByteLength text
                       then requestBodyTooLarge
                       else RequestBody.mk (Some text) false None)))
  /\ (forall world : World,
        (length (callsOf (run world
                   (buildRequestBody tabId requestId hasPostData requestPostData s)))
         <= 1)%nat)
  /\ (forall world : World,
        let tooLarge :=
          RequestBody.mk None true
            (Some (AppError.mk "REQUEST_BODY_TOO_LARGE" "请求体超过阈值，已跳过。"
                     VUndefined)) in
        let readFailed cause :=
          RequestBody.mk None false
            (Some (AppError.mk "REQUEST_BODY_READ_FAILED" "读取请求体失败" cause)) in
        let checked text :=
          if MAX_REQUEST_BODY_BYTES <? getTextByteLength text
          then tooLarge else RequestBody.mk (Some text) false None in
        let read := DebuggerSendCommand tabId "Network.getRequestPostData"
                      (VObj [("requestId", VStr requestId)]) in
        run world (buildRequestBody tabId requestId hasPostData requestPostData s)
        = match requestPostData, hasPostData, tabId with
          | Some text, _, _ => ([], s, Fulfilled (checked text))
          | None, true, Some _ =>
              ([read], snd (world read s),
               Fulfilled
                 match fst (world read s) with
                 | LastError lastError => readFailed lastError
                 | Result (VUndefined | VNull) => readFailed typeError
                 | Result result =>
                     match asString (prop result "postData") with
                     | Some text => checked text
                     | None => RequestBody.mk None false None
                     end
                 end)
          | None, _, _ => ([], s, Fulfilled (RequestBody.mk None false None))
          end).
Proof.
  assert (forall resolved,
             let requestBody := finishRequestBody resolved in
             (forall text,
                 RequestBody.text requestBody = Some text ->
                 getTextByteLength text <= MAX_REQUEST_BODY_BYTES
                 /\ RequestBody.truncated requestBody = false
                 /\ RequestBody.error requestBody = None)
             /\ (RequestBody.truncated requestBody = true ->
                 RequestBody.text requestBody = None
                 /\ AppError.code <$> RequestBody.error requestBody
                    = Some "REQUEST_BODY_TOO_LARGE")
             /\ (forall e,
                    RequestBody.error requestBody = Some e ->
                    RequestBody.text requestBody = None
                    /\ (AppError.code e = "REQUEST_BODY_TOO_LARGE"
                        \/ AppError.code e = "REQUEST_BODY_READ_FAILED")))
    as Hfinish.
  { intros [text|]; simpl; [|by repeat split].
    destruct (Z.ltb_spec MAX_REQUEST_BODY_BYTES (getTextByteLength text)); simpl.
    - split; [done|]. split; [done|]. intros e [= <-]. split; [done|by left].
    - split; [|done]. intros text' [= <-]. by repeat split. }
  assert (forall text,
             buildRequestBody tabId requestId hasPostData (Some text) s
             = Return s (Fulfilled (finishRequestBody (Some text)))) as Hinline.
  { intros text. unfold buildRequestBody, finishRequestBody.
    destruct hasPostData;
      by destruct (MAX_REQUEST_BODY_BYTES <? getTextByteLength text). }
  split; [|split; [done|]; split].
  2: { intros world.
       pose proof (buildRequestBody_run world tabId requestId hasPostData
                     requestPostData s) as Hrun.
       cbv zeta in Hrun. rewrite Hrun.
       destruct requestPostData as [text|]; [cbn; lia|].
       destruct hasPostData; [|cbn; lia].
       destruct tabId; cbn; lia. }
  2: { intros world. apply buildRequestBody_run. }
  destruct requestPostData as [text|].
  { rewrite Hinline. apply Always_Return. eexists. split; [done|]. apply Hfinish. }
  unfold buildRequestBody. destruct hasPostData.
  - destruct tabId as [t|].
    + apply Always_Await; [done|].
      intros [result|lastError] s'; simpl.
      * destruct result; cbn -[finishRequestBody]; apply Always_Return; eexists;
          (split; [reflexivity|]);
          first [apply Hfinish
                |split; [done|]; split; [done|];
                 intros e [= <-]; split; [done|by right]].
      * apply Always_Return. eexists. split; [reflexivity|].
        split; [done|]. split; [done|]. intros e [= <-]. split; [done|by right].
    + apply Always_Return. eexists. split; [reflexivity|]. apply (Hfinish None).
  - apply Always_Return. eexists. split; [reflexivity|]. apply (Hfinish None).
Qed.

(** X18.  When the declared length does not exceed [MAX_BODY_BYTES],
    [buildResponseBody] sends the one command [Network.getResponseBody] for
    the request and fulfils whatever the reply: a [lastError] gives no text
    and the error [BODY_READ_FAILED] with that [lastError] as cause; a result
    object gives its [body] when it is a string (no text otherwise), its
    [base64Encoded] flag when it is a boolean ([false] otherwise) and no
    error; a missing result gives [BODY_READ_FAILED].  [truncated] is never
    set on this path. *)
Theorem response_body_read
        (tabId : option Z) (requestId : string) (encodedDataLength : Z) (s : State) :
  encodedDataLength <= MAX_BODY_BYTES ->
  exists k,
    buildResponseBody tabId requestId encodedDataLength s
    = Await s (DebuggerSendCommand tabId "Network.getResponseBody"
                 (VObj [("requestId", VStr requestId)])) k
    /\ (forall lastError s',
          exists error,
            k (LastError lastError) s'
            = Return s' (Fulfilled (ResponseBody.mk None false false (Some error)))
            /\ AppError.code error = "BODY_READ_FAILED"
            /\ AppError.cause error = lastError)
    /\ (forall fields s',
          k (Result (VObj fields)) s'
          = Return s' (Fulfilled
                         (ResponseBody.mk
                            (asString (prop (VObj fields) "body"))
                            (default false (asBoolean (prop (VObj fields) "base64Encoded")))
                            false None)))
    /\ (forall s',
          exists error,
            k (Result VUndefined) s'
            = Return s' (Fulfilled (ResponseBody.mk None false false (Some error)))
            /\ AppError.code error = "BODY_READ_FAILED")
    /\ (forall reply s',
          exists body,
            k reply s' = Return s' (Fulfilled body)
            /\ ResponseBody.truncated body = false).
Proof.
  intros Hsmall%Z.ltb_ge. unfold buildResponseBody. rewrite Hsmall.
  eexists. split; [reflexivity|]. split; [|split; [|split]].
  - intros lastError s'. eexists. by split.
  - intros fields s'. reflexivity.
  - intros s'. eexists. by split.
  - intros [result|lastError] s'; [|by eexists].
    destruct result; by eexists.
Qed.

(** X19.  A loading-finished event for the attached tab whose requestId is
    pending first resolves the request body, then, on the state found at
    that time and for the tab attached at that time, the response body; it
    then removes the pending request and pushes one record made of the
    event's requestId and [encodedDataLength], the url, method, status,
    mimeType, resourceType and timeStamp of the pending request found when
    the event arrived, and the two bodies; the record is the newest of the
    store and is posted as [records.added] to every panel. *)
Theorem loading_finished_pushes_record
        (world : World) (now t : Z) (s : State) (params : value)
        (requestId : string) (encodedDataLength : Z) (pending : PendingRequest.t) :
  attachedTabId s = Some t ->
  parseLoadingFinished params = Some (requestId, encodedDataLength) ->
  pendingRequests s !! requestId = Some pending ->
  exists calls1 s1 requestBody calls2 s2 body,
    run world (buildRequestBody (Some t) requestId
                 (PendingRequest.hasPostData pending)
                 (PendingRequest.requestPostData pending) s)
    = (calls1, s1, Fulfilled requestBody)
    /\ run world (buildResponseBody (attachedTabId s1) requestId encodedDataLength s1)
       = (calls2, s2, Fulfilled body)
    /\ let record :=
         ResponseRecord.mk requestId
           (PendingRequest.url pending) (PendingRequest.method pending)
           (PendingRequest.status pending) (PendingRequest.mimeType pending)
           (PendingRequest.resourceType pending) (PendingRequest.timeStamp pending)
           encodedDataLength requestBody body in
       let final := pushRecord record (deletePending requestId s2) in
       run world (handleDebuggerEvent now (Some t) EVENT_LOADING_FINISHED params s)
       = (calls1 ++ calls2, final, tt)
       /\ pendingRequests final !! requestId = None
       /\ last (recordBuffer final) = Some record
       /\ posted final
          = posted s2 ++ map (fun port => (port, RecordsAddedMessage record)) (panelPorts s2).
Proof.
  intros Hattached Hparse Hpending.
  destruct (handleLoadingFinished_run world s t pending requestId encodedDataLength
              Hattached Hpending)
    as (calls1 & s1 & requestBody & calls2 & s2 & body & Hrequest & Hbody & Hrun).
  exists calls1, s1, requestBody, calls2, s2, body.
  split; [done|]. split; [done|]. cbn zeta. split; [|split; [|split]].
  - unfold handleDebuggerEvent.
    apply sameTab_attached in Hattached. rewrite Hattached. simpl.
    by rewrite Hparse, run_void, Hrun.
  - rewrite pushRecord_pending. simpl. apply lookup_delete_eq.
  - apply last_pushRecord.
  - by rewrite pushRecord_posted.
Qed.

(* ===================================================================== *)
(** ** Further properties: what the panel's validators return *)
(* ===================================================================== *)

Section ValidatorOutputs.

Lemma parseAppError_accepted v e :
  Panel.parseAppError v = Some e -> Accepted.appError e = true.
Proof.
  unfold Panel.parseAppError, Accepted.appError.
  destruct (negb (isRecord v)); [done|].
  destruct (truthyString (asString (prop v "code"))) as [code|] eqn:Hcode; [|done].
  destruct (truthyString (asString (prop v "message"))) as [message|] eqn:Hmessage;
    [|done].
  intros [= <-]. simpl.
  apply truthyString_Some in Hcode as [_ ->].
  by apply truthyString_Some in Hmessage as [_ ->].
Qed.

Lemma parseOptionalError_accepted v e :
  Panel.parseOptionalError v = Some e -> Accepted.optionalError e = true.
Proof.
  unfold Panel.parseOptionalError.
  destruct v; try (by intros [= <-]);
    match goal with
    | |- context [Panel.parseAppError ?x] =>
        destruct (Panel.parseAppError x) as [e'|] eqn:He; [|done];
        intros [= <-]; simpl; by apply parseAppError_accepted in He
    end.
Qed.

Lemma parseRequestBody_accepted v b :
  Panel.parseRequestBody v = Some b ->
  Accepted.optionalError (RequestBody.error b) = true.
Proof.
  unfold Panel.parseRequestBody.
  destruct (negb (isRecord v)); [done|].
  destruct (Panel.parseText (prop v "text")); [|done].
  destruct (asBoolean (prop v "truncated")); [|done].
  destruct (Panel.parseOptionalError (prop v "error")) as [e|] eqn:He; [|done].
  intros [= <-]. simpl. by apply parseOptionalError_accepted in He.
Qed.

Lemma parseResponseBody_accepted v b :
  Panel.parseResponseBody v = Some b ->
  Accepted.optionalError (ResponseBody.error b) = true.
Proof.
  unfold Panel.parseResponseBody.
  destruct (negb (isRecord v)); [done|].
  destruct (Panel.parseText (prop v "text")); [|done].
  destruct (asBoolean (prop v "isBase64")); [|done].
  destruct (asBoolean (prop v "truncated")); [|done].
  destruct (Panel.parseOptionalError (prop v "error")) as [e|] eqn:He; [|done].
  intros [= <-]. simpl. by apply parseOptionalError_accepted in He.
Qed.

Lemma parseResponseRecord_accepted v r :
  Panel.parseResponseRecord v = Some r -> Accepted.responseRecord r = true.
Proof.
  unfold Panel.parseResponseRecord, Accepted.responseRecord.
  destruct (negb (isRecord v)); [done|].
  destruct (truthyString (asString (prop v "id"))) as [id|] eqn:Hid; [|done].
  destruct (truthyString (asString (prop v "url"))) as [url|] eqn:Hurl; [|done].
  destruct (truthyString (asString (prop v "method"))) as [method|] eqn:Hmethod; [|done].
  destruct (asNumber (prop v "status")) as [status|]; [|done].
  destruct (truthyString (asString (prop v "mimeType"))) as [mimeType|] eqn:Hmime;
    [|done].
  destruct (truthyString (asString (prop v "resourceType"))) as [resourceType|] eqn:Htype;
    [|done].
  destruct (asNumber (prop v "timeStamp")) as [timeStamp|]; [|done].
  destruct (asNumber (prop v "encodedDataLength")) as [encodedDataLength|]; [|done].
  destruct (Panel.parseRequestBody (prop v "requestBody")) as [requestBody|] eqn:Hrequest;
    [|done].
  destruct (Panel.parseResponseBody (prop v "body")) as [body|] eqn:Hbody; [|done].
  intros [= <-]. simpl.
  apply truthyString_Some in Hid as [_ ->].
  apply truthyString_Some in Hurl as [_ ->].
  apply truthyString_Some in Hmethod as [_ ->].
  apply truthyString_Some in Hmime as [_ ->].
  apply truthyString_Some in Htype as [_ ->].
  apply parseRequestBody_accepted in Hrequest as ->.
  by apply parseResponseBody_accepted in Hbody as ->.
Qed.

Lemma parseRecords_accepted values records :
  Panel.parseRecords values = Some records ->
  forallb Accepted.responseRecord records = true.
Proof.
  revert records. induction values as [|v values IH]; intros records; simpl.
  - by intros [= <-].
  - destruct (Panel.parseResponseRecord v) as [r|] eqn:Hr; [|done].
    destruct (Panel.parseRecords values) as [rest|]; [|done].
    intros [= <-]. simpl.
    apply parseResponseRecord_accepted in Hr as ->. by apply IH.
Qed.

End ValidatorOutputs.

(** X20.  Whatever raw value it is given, a message returned by the
    panel's [parseBackgroundMessage] passes all the guards of the
    validators, and so is reconstructed unchanged when it is posted again:
    parsing is idempotent on its own output. *)
Theorem parsed_message_is_normal (v : value) (m : BackgroundToPanelMessage) :
  Panel.parseBackgroundMessage v = Some m ->
  Accepted.backgroundMessage m = true
  /\ Panel.parseBackgroundMessage (Wire.ofBackgroundMessage m) = Some m.
Proof.
  intros Hparse.
  assert (Accepted.backgroundMessage m = true) as Haccepted.
  { revert Hparse. unfold Panel.parseBackgroundMessage.
    destruct (negb (isRecord v)); [done|].
    destruct (truthyString (asString (prop v "type"))) as [messageType|]; [|done].
    destruct (String.eqb messageType "status.update").
    { destruct (Panel.parseAttachedTabId (prop v "attachedTabId")); [|done].
      by intros [= <-]. }
    destruct (String.eqb messageType "records.snapshot").
    { destruct (asArray (prop v "records")) as [values|]; [|done].
      destruct (Panel.parseAttachedTabId (prop v "attachedTabId")); [|done].
      destruct (Panel.parseRecords values) as [records|] eqn:Hrecords; [|done].
      intros [= <-]. simpl. by apply parseRecords_accepted in Hrecords. }
    destruct (String.eqb messageType "records.added").
    { destruct (Panel.parseResponseRecord (prop v "record")) as [r|] eqn:Hr; [|done].
      intros [= <-]. simpl. by apply parseResponseRecord_accepted in Hr. }
    destruct (String.eqb messageType "error"); [|done].
    destruct (Panel.parseAppError (prop v "error")) as [e|] eqn:He; [|done].
    intros [= <-]. simpl. by apply parseAppError_accepted in He. }
  split; [done|]. by rewrite parseBackgroundMessage_wire, Haccepted.
Qed.

(* ===================================================================== *)
(** ** Further properties: the bodies of the stored records *)
(* ===================================================================== *)

Lemma bodies_stretches : StretchesKeep Invariant.bodies.
Proof.
  unfold Invariant.bodies. split.
  - intros port name s H. rewrite handlePortConnection_unfold.
    by destruct (negb (String.eqb name "panel")).
  - intros port s H. by explicit_state.
  - intros s H. by explicit_state.
  - intros s H. explicit_state. constructor.
  - intros t s H. by explicit_state.
  - intros e s _ H. by explicit_state.
  - intros s H. by explicit_state.
  - intros s H. by explicit_state.
  - intros s H. explicit_state. constructor.
  - intros now params pending t s H _ _. by explicit_state.
  - intros params requestId existing updated t s H _ _ _. by explicit_state.
  - intros s0 s requestId pending len requestBody body _ _ Hrequest Hbody H.
    explicit_state. apply Forall_app. split; [|by repeat constructor].
    destruct (MAX_RECORDS <=? length (recordBuffer s))%nat; [|done].
    destruct H; [constructor|done].
Qed.

(** X21.  In every reachable state, for every record of the store: a
    request-body text is at most [MAX_REQUEST_BODY_BYTES] bytes long and
    comes with [truncated = false] and no error; a response-body text comes
    with [truncated = false] and no error.  So a body that is truncated or
    carries an error never carries a text. *)
Theorem reachable_records_bodies (inputs : list Loop.Input) (r : ResponseRecord.t) :
  r ∈ recordBuffer (Loop.state (Loop.runLoop inputs)) ->
  (forall text,
      RequestBody.text (ResponseRecord.requestBody r) = Some text ->
      getTextByteLength text <= MAX_REQUEST_BODY_BYTES
      /\ RequestBody.truncated (ResponseRecord.requestBody r) = false
      /\ RequestBody.error (ResponseRecord.requestBody r) = None)
  /\ (forall text,
         ResponseBody.text (ResponseRecord.body r) = Some text ->
         ResponseBody.truncated (ResponseRecord.body r) = false
         /\ ResponseBody.error (ResponseRecord.body r) = None).
Proof.
  intros Hr.
  assert (Invariant.bodies (Loop.state (Loop.runLoop inputs))) as Hall
    by (apply (reachable_keeps Invariant.bodies inputs bodies_stretches); constructor).
  unfold Invariant.bodies in Hall. rewrite Forall_forall in Hall.
  destruct (Hall r Hr) as [Hrequest Hbody].
  unfold Wellformed.requestBody in Hrequest. unfold Wellformed.responseBody in Hbody.
  apply andb_true_iff in Hrequest as [_ Hrequest].
  apply andb_true_iff in Hbody as [_ Hbody].
  split.
  - intros text Htext. rewrite Htext in Hrequest.
    apply andb_true_iff in Hrequest as [Hrequest Herror].
    apply andb_true_iff in Hrequest as [Hlen Htruncated].
    apply Z.leb_le in Hlen. apply negb_true_iff in Htruncated.
    by apply bool_decide_eq_true in Herror.
  - intros text Htext. rewrite Htext in Hbody.
    apply andb_true_iff in Hbody as [Htruncated Herror].
    apply negb_true_iff in Htruncated.
    by apply bool_decide_eq_true in Herror.
Qed.

(* --------------------------------------------------------------------- *)
(** *** The further properties at concrete inputs *)

Lemma reachable_unattached_has_no_pending_revoked :
  attachedTabId (Loop.state (Loop.runLoop Session.revoked)) = None
  /\ pendingRequests (Loop.state (Loop.runLoop Session.revoked)) = ∅.
Proof.
  assert (attachedTabId (Loop.state (Loop.runLoop Session.revoked)) = None) as Hnone
    by (vm_compute; reflexivity).
  split; [exact Hnone|].
  exact (reachable_unattached_has_no_pending Session.revoked Hnone).
Defined.

Lemma reachable_pending_requests_wellformed_r2 :
  pendingRequests (Loop.state (Loop.runLoop Session.announced_r2)) !! "r2"
  = Some Session.request_r2
  /\ (PendingRequest.requestId Session.request_r2 = "r2"
      /\ "r2" <> ""
      /\ PendingRequest.url Session.request_r2 <> ""
      /\ PendingRequest.method Session.request_r2 <> ""
      /\ (PendingRequest.resourceType Session.request_r2 = "Fetch"
          \/ PendingRequest.resourceType Session.request_r2 = "XHR"
          \/ PendingRequest.resourceType Session.request_r2 = "")).
Proof.
  assert (pendingRequests (Loop.state (Loop.runLoop Session.announced_r2)) !! "r2"
          = Some Session.request_r2) as Hlookup by (vm_compute; reflexivity).
  split; [exact Hlookup|].
  exact (reachable_pending_requests_wellformed Session.announced_r2 "r2"
           Session.request_r2 Hlookup).
Defined.

Lemma reachable_messages_parse_iff_headers_capture :
  (1%nat, RecordsAddedMessage Session.record_r1)
  ∈ posted (Loop.state (Loop.runLoop Session.capture))
  /\ Panel.parseBackgroundMessage
       (Wire.ofBackgroundMessage (RecordsAddedMessage Session.record_r1))
     = Some (RecordsAddedMessage Session.record_r1).
Proof.
  assert ((1%nat, RecordsAddedMessage Session.record_r1)
          ∈ posted (Loop.state (Loop.runLoop Session.capture))) as Hposted.
  { apply list_elem_of_In. vm_compute. do 3 right. left. reflexivity. }
  split; [exact Hposted|].
  exact (reachable_messages_parse_iff_headers Session.capture 1%nat
           (RecordsAddedMessage Session.record_r1) Hposted).
Defined.

Lemma reachable_panel_in_sync_capture :
  let s := Loop.state (Loop.runLoop Session.capture) in
  (1%nat ∈ panelPorts s
   /\ Forall (fun pm => fst pm = 1%nat -> Accepted.backgroundMessage (snd pm) = true)
             (posted s))
  /\ NoDup (panelPorts s)
  /\ PanelView.attachedTabId (PanelView.replay 1%nat (posted s)) = attachedTabId s
  /\ recordBuffer s `suffix_of` PanelView.records (PanelView.replay 1%nat (posted s)).
Proof.
  intros s.
  assert (1%nat ∈ panelPorts s) as Hport.
  { apply list_elem_of_In. vm_compute. left. reflexivity. }
  assert (Forall (fun pm => fst pm = 1%nat -> Accepted.backgroundMessage (snd pm) = true)
                 (posted s)) as Haccepted.
  { unfold s. set (log := posted _). vm_compute in log. subst log.
    repeat (constructor; [intros _; reflexivity|]). constructor. }
  split; [done|].
  exact (reachable_panel_in_sync Session.capture 1%nat Hport Haccepted).
Defined.

Lemma parsed_command_matches_payload_attach :
  parsePanelMessage Session.rawAttach = Some (DebuggerAttachMessage 7)
  /\ isRecord Session.rawAttach = true
  /\ prop Session.rawAttach "type"
     = prop (PanelWire.ofPanelMessage (DebuggerAttachMessage 7)) "type"
  /\ prop Session.rawAttach "tabId" = num 7.
Proof.
  split; [reflexivity|].
  exact (parsed_command_matches_payload Session.rawAttach (DebuggerAttachMessage 7)
           eq_refl).
Defined.

Lemma announced_request_fields_r1 :
  let params := Scenario.announce "r1" "Fetch" in
  let p := Scenario.pending_r1 in
  parseRequestWillBeSent 1000 params = Some p
  /\ asString (prop params "requestId") = Some "r1"
  /\ PendingRequest.status p = 0
  /\ PendingRequest.mimeType p = ""
  /\ PendingRequest.timeStamp p = 1000
  /\ PendingRequest.hasPostData p = false.
Proof.
  intros params p.
  assert (parseRequestWillBeSent 1000 params = Some p) as Hparse by reflexivity.
  split; [exact Hparse|].
  destruct (announced_request_fields 1000 params p Hparse)
    as (Hid & _ & _ & _ & _ & _ & _ & _ & Hstatus & Hmime & Htime & _ & _).
  split; [exact Hid|]. split; [exact Hstatus|]. split; [exact Hmime|].
  split; [exact Htime|]. reflexivity.
Defined.

Lemma announcement_inserts_or_replaces_r1 :
  let s := Scenario.headers_r1 in
  let params := Scenario.announce "r1" "Fetch" in
  (attachedTabId s = Some 7
   /\ parseRequestWillBeSent 1005 params = Some Session.request_r1_again
   /\ pendingRequests s !! "r1" = Some Session.request_r1)
  /\ exists s',
       handleDebuggerEvent 1005 (Some 7) EVENT_REQUEST_WILL_BE_SENT params s = Return s' tt
       /\ pendingRequests s' !! "r1" = Some Session.request_r1_again
       /\ (forall other, other <> "r1" ->
                         pendingRequests s' !! other = pendingRequests s !! other)
       /\ attachedTabId s' = attachedTabId s
       /\ panelPorts s' = panelPorts s
       /\ recordBuffer s' = recordBuffer s
       /\ posted s' = posted s.
Proof.
  intros s params.
  assert (attachedTabId s = Some 7) as H1 by (vm_compute; reflexivity).
  assert (parseRequestWillBeSent 1005 params = Some Session.request_r1_again) as H2
    by reflexivity.
  assert (pendingRequests s !! "r1" = Some Session.request_r1) as H3
    by (vm_compute; reflexivity).
  split; [done|].
  exact (announcement_inserts_or_replaces 1005 7 params Session.request_r1_again s H1 H2).
Defined.

Lemma unattached_ignores_debugger_revoked :
  let M := Loop.runLoop Session.revoked in
  let inputs :=
    [Loop.DebuggerEvent 1010 (Some 7) EVENT_REQUEST_WILL_BE_SENT
       (Scenario.announce "r3" "Fetch");
     Loop.DebuggerEvent 1011 None EVENT_LOADING_FAILED (Scenario.failed "r2");
     Loop.DebuggerDetached (Some 7)] in
  attachedTabId (Loop.state M) = None /\ fold_left Loop.step inputs M = M.
Proof.
  intros M inputs.
  assert (attachedTabId (Loop.state M) = None) as Hnone by (vm_compute; reflexivity).
  split; [exact Hnone|].
  apply (unattached_ignores_debugger M inputs Hnone).
  repeat constructor.
Defined.

Lemma detach_effect_at_7 :
  let s := Scenario.headers_r1 in
  attachedTabId s = Some 7
  /\ run Scenario.quiet (detachFromTab 7 s)
     = ([DebuggerDetach 7],
        mkState None (panelPorts s) ∅ (recordBuffer s)
          (posted s ++ map (fun port => (port, DebuggerStatusUpdateMessage None))
                           (panelPorts s)),
        Fulfilled tt)
  /\ (forall reply,
        run (answering (fun _ => reply)) (detachFromTab 7 s)
        = ([DebuggerDetach 7], onDetach (Some 7) s, Fulfilled tt)).
Proof.
  intros s.
  assert (attachedTabId s = Some 7) as Hattached by (vm_compute; reflexivity).
  split; [exact Hattached|].
  exact (detach_effect Scenario.quiet 7 s Hattached).
Defined.

Lemma attach_switches_session_7_to_8 :
  let s := Scenario.headers_r1 in
  let oracle := fun _ : Call => Session.ok in
  attachedTabId s = Some 7
  /\ run (answering oracle) (attachToTab 8 s)
     = ([DebuggerDetach 7; DebuggerAttach 8 "1.3";
         DebuggerSendCommand (Some 8) "Network.enable" VUndefined],
        mkState (Some 8) [1%nat] ∅ []
          (posted s
           ++ [(1%nat, DebuggerStatusUpdateMessage None);
               (1%nat, DebuggerStatusUpdateMessage (Some 8));
               (1%nat, RecordsSnapshotMessage [] (Some 8))]),
        Fulfilled tt).
Proof.
  intros s oracle.
  assert (attachedTabId s = Some 7) as Hattached by (vm_compute; reflexivity).
  assert (attachedTabId s <> Some 8) as Hother by (rewrite Hattached; discriminate).
  split; [exact Hattached|].
  pose proof (attach_switches_session oracle 8 s (VObj []) (VObj []) Hother eq_refl eq_refl)
    as Hrun.
  rewrite Hattached in Hrun. exact Hrun.
Defined.

Lemma attach_handshake_failure_at_8 :
  let s := Scenario.headers_r1 in
  (attachedTabId s <> Some 8
   /\ Session.refusingAttach (DebuggerAttach 8 "1.3") = LastError Session.refused)
  /\ exists error,
       AppError.code error = "ATTACH_FAILED" /\ AppError.cause error = Session.refused
       /\ run (answering Session.refusingAttach)
              (handlePanelMessage (DebuggerAttachMessage 8) s)
          = ([DebuggerDetach 7; DebuggerAttach 8 "1.3"],
             mkState None [1%nat] ∅ []
               (posted s
                ++ [(1%nat, DebuggerStatusUpdateMessage None);
                    (1%nat, ErrorMessage error)]),
             tt).
Proof.
  intros s.
  assert (attachedTabId s = Some 7) as Hattached by (vm_compute; reflexivity).
  assert (attachedTabId s <> Some 8) as Hother by (rewrite Hattached; discriminate).
  split; [done|].
  pose proof (attach_handshake_failure Session.refusingAttach 8 s Session.refused
                Hother eq_refl) as Hrun.
  rewrite Hattached in Hrun. exact Hrun.
Defined.

Lemma attach_enable_failure_at_8 :
  let s := Scenario.headers_r1 in
  (attachedTabId s <> Some 8
   /\ Session.refusingCommands (DebuggerAttach 8 "1.3") = Result (VObj [])
   /\ Session.refusingCommands (DebuggerSendCommand (Some 8) "Network.enable" VUndefined)
      = LastError Session.refused)
  /\ exists error,
       AppError.code error = "ATTACH_FAILED" /\ AppError.cause error = Session.refused
       /\ run (answering Session.refusingCommands)
              (handlePanelMessage (DebuggerAttachMessage 8) s)
          = ([DebuggerDetach 7; DebuggerAttach 8 "1.3";
              DebuggerSendCommand (Some 8) "Network.enable" VUndefined],
             mkState None [1%nat] ∅ []
               (posted s
                ++ [(1%nat, DebuggerStatusUpdateMessage None);
                    (1%nat, ErrorMessage error)]),
             tt)
       /\ DebuggerDetach 8 ∉ [DebuggerDetach 7].
Proof.
  intros s.
  assert (attachedTabId s = Some 7) as Hattached by (vm_compute; reflexivity).
  assert (attachedTabId s <> Some 8) as Hother by (rewrite Hattached; discriminate).
  split; [done|].
  pose proof (attach_enable_failure Session.refusingCommands 8 s (VObj []) Session.refused
                Hother eq_refl eq_refl) as Hrun.
  rewrite Hattached in Hrun. exact Hrun.
Defined.

Lemma response_body_read_at_10 :
  10 <= MAX_BODY_BYTES
  /\ exists k,
       buildResponseBody (Some 7) "r1" 10 Scenario.headers_r1
       = Await Scenario.headers_r1
           (DebuggerSendCommand (Some 7) "Network.getResponseBody"
              (VObj [("requestId", VStr "r1")])) k
       /\ (forall s',
             k Session.bodyRead s'
             = Return s' (Fulfilled (ResponseBody.mk (Some "{a:1}") false false None)))
       /\ (forall s',
             exists error,
               k (LastError Session.refused) s'
               = Return s' (Fulfilled (ResponseBody.mk None false false (Some error)))
               /\ AppError.code error = "BODY_READ_FAILED"
               /\ AppError.cause error = Session.refused).
Proof.
  assert (10 <= MAX_BODY_BYTES) as Hsmall by (vm_compute; discriminate).
  split; [exact Hsmall|].
  destruct (response_body_read (Some 7) "r1" 10 Scenario.headers_r1 Hsmall)
    as (k & Hshape & Herror & Hresult & _ & _).
  exists k. split; [exact Hshape|]. split.
  - intros s'. exact (Hresult _ s').
  - intros s'. exact (Herror Session.refused s').
Defined.

Lemma loading_finished_pushes_record_r1 :
  let s := Scenario.headers_r1 in
  let params := Scenario.finished "r1" 10 in
  (attachedTabId s = Some 7
   /\ parseLoadingFinished params = Some ("r1", 10)
   /\ pendingRequests s !! "r1" = Some Session.request_r1)
  /\ run Scenario.serving (handleDebuggerEvent 1002 (Some 7) EVENT_LOADING_FINISHED params s)
     = ([DebuggerSendCommand (Some 7) "Network.getResponseBody"
           (VObj [("requestId", VStr "r1")])],
        pushRecord Session.record_r1 (deletePending "r1" s),
        tt).
Proof.
  intros s params.
  assert (attachedTabId s = Some 7) as H1 by (vm_compute; reflexivity).
  assert (parseLoadingFinished params = Some ("r1", 10)) as H2 by reflexivity.
  assert (pendingRequests s !! "r1" = Some Session.request_r1) as H3
    by (vm_compute; reflexivity).
  split; [done|].
  destruct (loading_finished_pushes_record Scenario.serving 1002 7 s params "r1" 10
              Session.request_r1 H1 H2 H3)
    as (calls1 & s1 & requestBody & calls2 & s2 & body & Hrequest & Hbody & Hrun & _).
  injection Hrequest as <- <- <-.
  rewrite H1 in Hbody. injection Hbody as <- <- <-.
  exact Hrun.
Defined.

Lemma parsed_message_is_normal_status :
  Panel.parseBackgroundMessage Session.rawStatus
  = Some (DebuggerStatusUpdateMessage (Some 7))
  /\ Accepted.backgroundMessage (DebuggerStatusUpdateMessage (Some 7)) = true
  /\ Panel.parseBackgroundMessage
       (Wire.ofBackgroundMessage (DebuggerStatusUpdateMessage (Some 7)))
     = Some (DebuggerStatusUpdateMessage (Some 7)).
Proof.
  split; [reflexivity|].
  exact (parsed_message_is_normal Session.rawStatus
           (DebuggerStatusUpdateMessage (Some 7)) eq_refl).
Defined.

Lemma reachable_records_bodies_capture :
  Session.record_r1 ∈ recordBuffer (Loop.state (Loop.runLoop Session.capture))
  /\ (forall text,
         RequestBody.text (ResponseRecord.requestBody Session.record_r1) = Some text ->
         getTextByteLength text <= MAX_REQUEST_BODY_BYTES
         /\ RequestBody.truncated (ResponseRecord.requestBody Session.record_r1) = false
         /\ RequestBody.error (ResponseRecord.requestBody Session.record_r1) = None)
  /\ (forall text,
         ResponseBody.text (ResponseRecord.body Session.record_r1) = Some text ->
         ResponseBody.truncated (ResponseRecord.body Session.record_r1) = false
         /\ ResponseBody.error (ResponseRecord.body Session.record_r1) = None).
Proof.
  assert (Session.record_r1 ∈ recordBuffer (Loop.state (Loop.runLoop Session.capture)))
    as Hin.
  { apply list_elem_of_In. vm_compute. left. reflexivity. }
  split; [exact Hin|].
  exact (reachable_records_bodies Session.capture Session.record_r1 Hin).
Defined.
